(** * Transcript model of docs/context/cc-transcript-model-example.py

    A shallow embedding of the pydantic transcript models and of the three
    parsing functions of the module: [normalize_usage_info],
    [parse_content_item], [parse_message_content] and
    [parse_transcript_entry].

    - JSON values as produced by [json.loads] are the inductive [json]
      (numbers are integers; floats are not modelled).
    - Python values that the decoder stores back into the dictionaries it
      copies (validated model instances) are the inductive [pyval].
    - A pydantic [Model.model_validate] is a function into [option]: [None]
      is a [ValidationError].
    - Python exceptions are the constructors of [exn] and code that may
      raise is written in the small exception monad [res]. *)

From Stdlib Require Import String Ascii List ZArith Bool Lia.
Import ListNotations.
Open Scope string_scope.
Set Warnings "-register-all".

(* ------------------------------------------------------------------ *)
(** ** JSON values and Python values *)

Inductive json : Type :=
| JNull
| JBool (b : bool)
| JInt (z : Z)
| JStr (s : string)
| JList (l : list json)
| JDict (kvs : list (string * json)).

(** Python's [dict] lookup on an insertion-ordered association list. *)
Fixpoint lookup {A} (k : string) (kvs : list (string * A)) : option A :=
  match kvs with
  | [] => None
  | (k', v) :: rest => if String.eqb k k' then Some v else lookup k rest
  end.

(** [d[k] = v]: an existing key keeps its position, a new key goes last. *)
Fixpoint dict_set {A} (k : string) (v : A) (kvs : list (string * A))
  : list (string * A) :=
  match kvs with
  | [] => [(k, v)]
  | (k', v') :: rest =>
      if String.eqb k k' then (k', v) :: rest else (k', v') :: dict_set k v rest
  end.

Definition dict_has {A} (k : string) (kvs : list (string * A)) : bool :=
  match lookup k kvs with Some _ => true | None => false end.

(* ------------------------------------------------------------------ *)
(** ** Python's [str()] of a JSON value *)

Definition char_of_digit (d : N) : ascii := ascii_of_N (48 + d).

Fixpoint dec_N_aux (fuel : nat) (n : N) (acc : string) : string :=
  match fuel with
  | O => acc
  | S fuel' =>
      let acc' := String (char_of_digit (N.modulo n 10)) acc in
      let q := N.div n 10 in
      if N.eqb q 0 then acc' else dec_N_aux fuel' q acc'
  end.

(** Decimal rendering of a natural number, as [str(int)]. *)
Definition dec_N (n : N) : string := dec_N_aux (S (N.size_nat n)) n "".

Definition str_int (z : Z) : string :=
  match z with
  | Z0 => "0"
  | Zpos p => dec_N (Npos p)
  | Zneg p => "-" ++ dec_N (Npos p)
  end.

Definition hex_digit (d : N) : ascii :=
  if N.ltb d 10 then ascii_of_N (48 + d) else ascii_of_N (87 + d).

Fixpoint string_has_char (c : ascii) (s : string) : bool :=
  match s with
  | EmptyString => false
  | String c' s' => Ascii.eqb c c' || string_has_char c s'
  end.

(** The escape of one character inside [repr(str)], quote [q]. *)
Definition repr_char (q : ascii) (c : ascii) : string :=
  let n := N_of_ascii c in
  if Ascii.eqb c "\" then "\\"
  else if Ascii.eqb c q then String "\" (String q EmptyString)
  else if N.eqb n 10 then "\n"
  else if N.eqb n 13 then "\r"
  else if N.eqb n 9 then "\t"
  else if N.ltb n 32 || N.eqb n 127 then
    String "\" (String "x" (String (hex_digit (N.div n 16))
                              (String (hex_digit (N.modulo n 16)) EmptyString)))
  else String c EmptyString.

Fixpoint repr_body (q : ascii) (s : string) : string :=
  match s with
  | EmptyString => EmptyString
  | String c s' => repr_char q c ++ repr_body q s'
  end.

(** [repr(s)]: single quotes, unless [s] holds a single quote and no double
    quote.  (Escapes of non-ASCII code points are not modelled: strings are
    byte strings here.) *)
Definition double_quote : ascii := ascii_of_N 34.

Definition repr_str (s : string) : string :=
  let q := if string_has_char "'" s && negb (string_has_char double_quote s)
           then double_quote else "'"%char in
  String q (repr_body q s ++ String q EmptyString).

Definition join (sep : string) (l : list string) : string :=
  match l with
  | [] => ""
  | x :: rest => fold_left (fun acc y => acc ++ sep ++ y) rest x
  end.

(** [repr(v)] of a JSON value; [str(v)] differs only on strings. *)
Fixpoint py_repr (j : json) : string :=
  match j with
  | JNull => "None"
  | JBool true => "True"
  | JBool false => "False"
  | JInt z => str_int z
  | JStr s => repr_str s
  | JList l => "[" ++ join ", " (map py_repr l) ++ "]"
  | JDict kvs =>
      "{" ++ join ", " (map (fun kv => repr_str (fst kv) ++ ": " ++ py_repr (snd kv)) kvs)
      ++ "}"
  end.

Definition py_str (j : json) : string :=
  match j with
  | JStr s => s
  | _ => py_repr j
  end.

(* ------------------------------------------------------------------ *)
(** ** The pydantic models *)

(** [TodoItem]; [status] and [priority] are checked against their
    [Literal] values by the validator. *)
Record TodoItem := mkTodoItem {
  todo_id : string; todo_content : string; todo_status : string; todo_priority : string }.

(** [UsageInfo]: every field optional. *)
Record UsageInfo := mkUsageInfo {
  ui_input_tokens : option Z;
  ui_cache_creation_input_tokens : option Z;
  ui_cache_read_input_tokens : option Z;
  ui_output_tokens : option Z;
  ui_service_tier : option string;
  ui_server_tool_use : option (list (string * json)) }.

(** The provider's [anthropic.types.ServerToolUsage] and [Usage] (external
    library models, with the fields of the SDK; the extra fields the SDK's
    models keep are not modelled). *)
Record ServerToolUsage := mkServerToolUsage { stu_web_search_requests : Z }.

Record AnthropicUsage := mkAnthropicUsage {
  au_input_tokens : Z;
  au_output_tokens : Z;
  au_cache_creation_input_tokens : option Z;
  au_cache_read_input_tokens : option Z;
  au_server_tool_use : option ServerToolUsage;
  au_service_tier : option string }.

(** [ImageSource]: [type] is the literal ["base64"]. *)
Record ImageSource := mkImageSource { src_media_type : string; src_data : string }.

(** [ToolResultContent.content : Union[str, List[Dict[str, Any]]]]. *)
Inductive ToolResultBody :=
| TRStr (s : string)
| TRDicts (l : list (list (string * json))).

(** [ContentItem]: the five local models and the provider's content blocks
    that [parse_content_item] builds ([TextBlock], [ToolUseBlock],
    [ThinkingBlock]).  [TextBlock.citations] is kept as the raw list;
    [ToolUseBlock.input] is typed [object] in the SDK and accepts any value. *)
Inductive ContentItem :=
| TextContent (text : string)
| ToolUseContent (id name : string) (input : list (string * json))
| ToolResultContent (tool_use_id : string) (content : ToolResultBody) (is_error : option bool)
| ThinkingContent (thinking : string) (signature : option string)
| ImageContent (source : ImageSource)
| TextBlock (citations : option (list json)) (text : string)
| ToolUseBlock (id : string) (input : json) (name : string)
| ThinkingBlock (signature : string) (thinking : string).

(** [UserMessage.content : Union[str, List[ContentItem]]]. *)
Inductive MessageContent :=
| MCStr (s : string)
| MCItems (l : list ContentItem).

Record UserMessage := mkUserMessage { um_content : MessageContent }.

Record AssistantMessage := mkAssistantMessage {
  am_id : string;
  am_model : string;
  am_content : list ContentItem;
  am_stop_reason : option string;
  am_stop_sequence : option string;
  am_usage : option UsageInfo }.

Record FileInfo := mkFileInfo {
  fi_filePath : string; fi_content : string; fi_numLines : Z; fi_startLine : Z; fi_totalLines : Z }.

Record FileReadResult := mkFileReadResult { frr_file : FileInfo }.

Record CommandResult := mkCommandResult {
  cr_stdout : string; cr_stderr : string; cr_interrupted : bool; cr_isImage : bool }.

Record TodoResult := mkTodoResult { tr_oldTodos : list TodoItem; tr_newTodos : list TodoItem }.

(** [EditResult]: [structuredPatch : Optional[Any]]. *)
Record EditResult := mkEditResult {
  er_oldString : option string;
  er_newString : option string;
  er_replaceAll : option bool;
  er_originalFile : option string;
  er_structuredPatch : option json;
  er_userModified : option bool }.

(** [ToolUseResult], members in declaration order. *)
Inductive ToolUseResult :=
| TURStr (s : string)
| TURTodos (l : list TodoItem)
| TURFileRead (r : FileReadResult)
| TURCommand (r : CommandResult)
| TURTodo (r : TodoResult)
| TUREdit (r : EditResult)
| TURContent (l : list ContentItem).

Record BaseTranscriptEntry := mkBase {
  b_parentUuid : option string;
  b_isSidechain : bool;
  b_userType : string;
  b_cwd : string;
  b_sessionId : string;
  b_version : string;
  b_uuid : string;
  b_timestamp : string;
  b_isMeta : option bool }.

Record UserTranscriptEntry := mkUserEntry {
  ue_base : BaseTranscriptEntry;
  ue_message : UserMessage;
  ue_toolUseResult : option ToolUseResult }.

Record AssistantTranscriptEntry := mkAssistantEntry {
  ae_base : BaseTranscriptEntry;
  ae_message : AssistantMessage;
  ae_requestId : option string }.

Record SummaryTranscriptEntry := mkSummaryEntry {
  se_summary : string; se_leafUuid : string; se_cwd : option string }.

Record SystemTranscriptEntry := mkSystemEntry {
  sy_base : BaseTranscriptEntry; sy_content : string; sy_level : option string }.

(** [operation] is checked against [Literal["enqueue", "dequeue"]]. *)
Record QueueOperationTranscriptEntry := mkQueueEntry {
  qe_operation : string;
  qe_timestamp : string;
  qe_sessionId : string;
  qe_content : option (list ContentItem) }.

Inductive TranscriptEntry :=
| EUser (e : UserTranscriptEntry)
| EAssistant (e : AssistantTranscriptEntry)
| ESummary (e : SummaryTranscriptEntry)
| ESystem (e : SystemTranscriptEntry)
| EQueueOperation (e : QueueOperationTranscriptEntry).

(** Python values: JSON data plus the model instances that the parsing
    functions store into the copied dictionaries, and arbitrary objects
    with attributes (the [Any] argument of [normalize_usage_info]). *)
Inductive pyval :=
| PNone
| PBool (b : bool)
| PInt (z : Z)
| PStr (s : string)
| PList (l : list pyval)
| PDict (kvs : list (string * pyval))
| PContent (c : ContentItem)
| PUsageInfo (u : UsageInfo)
| PAnthropicUsage (u : AnthropicUsage)
| PObject (attrs : list (string * pyval)).

Fixpoint of_json (j : json) : pyval :=
  match j with
  | JNull => PNone
  | JBool b => PBool b
  | JInt z => PInt z
  | JStr s => PStr s
  | JList l => PList (map of_json l)
  | JDict kvs => PDict (map (fun kv => (fst kv, of_json (snd kv))) kvs)
  end.

Definition pkvs (kvs : list (string * json)) : list (string * pyval) :=
  map (fun kv => (fst kv, of_json (snd kv))) kvs.

Definition option_bind {A B} (o : option A) (f : A -> option B) : option B :=
  match o with Some a => f a | None => None end.

Notation "'let?' x ':=' e 'in' b" := (option_bind e (fun x => b))
  (at level 200, x name, e at level 100, b at level 200).

Fixpoint traverse_opt {A B} (f : A -> option B) (l : list A) : option (list B) :=
  match l with
  | [] => Some []
  | x :: rest => let? y := f x in let? ys := traverse_opt f rest in Some (y :: ys)
  end.

(** Back from a Python value to JSON; model instances and objects have no
    JSON form. *)
Fixpoint to_json (v : pyval) : option json :=
  match v with
  | PNone => Some JNull
  | PBool b => Some (JBool b)
  | PInt z => Some (JInt z)
  | PStr s => Some (JStr s)
  | PList l => let? l' := traverse_opt to_json l in Some (JList l')
  | PDict kvs =>
      let? kvs' := traverse_opt (fun kv => let? j := to_json (snd kv) in Some (fst kv, j)) kvs in
      Some (JDict kvs')
  | _ => None
  end.

(* ------------------------------------------------------------------ *)
(** ** Pydantic validation (lax mode)

    Scalar fields follow pydantic's lax conversions: an [int] field takes
    an int, a bool or a string of decimal digits with an optional sign; a
    [bool] field takes a bool, the ints 0 and 1 or one of the usual words;
    a [str] field takes only a string.  Unknown keys are ignored. *)

Fixpoint digits_val (s : string) (acc : Z) : option Z :=
  match s with
  | EmptyString => Some acc
  | String c s' =>
      let n := Z.of_N (N_of_ascii c) in
      if (48 <=? n)%Z && (n <=? 57)%Z then digits_val s' (acc * 10 + (n - 48))%Z
      else None
  end.

Definition parse_int_str (s : string) : option Z :=
  match s with
  | String "-" (String c r) => option_map Z.opp (digits_val (String c r) 0)
  | String "+" (String c r) => digits_val (String c r) 0
  | String _ _ => digits_val s 0
  | EmptyString => None
  end.

Definition lower_ascii (c : ascii) : ascii :=
  let n := N_of_ascii c in
  if (65 <=? n)%N && (n <=? 90)%N then ascii_of_N (n + 32) else c.

Fixpoint lower (s : string) : string :=
  match s with
  | EmptyString => EmptyString
  | String c s' => String (lower_ascii c) (lower s')
  end.

Definition v_str (v : pyval) : option string :=
  match v with PStr s => Some s | _ => None end.

Definition v_int (v : pyval) : option Z :=
  match v with
  | PInt z => Some z
  | PBool b => Some (if b then 1%Z else 0%Z)
  | PStr s => parse_int_str s
  | _ => None
  end.

Definition v_bool (v : pyval) : option bool :=
  match v with
  | PBool b => Some b
  | PInt 0 => Some false
  | PInt 1 => Some true
  | PStr s =>
      let w := lower s in
      if existsb (String.eqb w) ["0"; "off"; "f"; "false"; "n"; "no"] then Some false
      else if existsb (String.eqb w) ["1"; "on"; "t"; "true"; "y"; "yes"] then Some true
      else None
  | _ => None
  end.

(** [Literal[l1, ..., ln]] over strings. *)
Definition v_literal (ls : list string) (v : pyval) : option string :=
  match v with
  | PStr s => if existsb (String.eqb s) ls then Some s else None
  | _ => None
  end.

Definition v_opt {A} (f : pyval -> option A) (v : pyval) : option (option A) :=
  match v with PNone => Some None | _ => option_map Some (f v) end.

Definition v_list {A} (f : pyval -> option A) (v : pyval) : option (list A) :=
  match v with PList l => traverse_opt f l | _ => None end.

(** [Any]. *)
Definition v_any (v : pyval) : option json := to_json v.

(** [Dict[str, Any]]. *)
Definition v_dict_any (v : pyval) : option (list (string * json)) :=
  match v with
  | PDict kvs => traverse_opt (fun kv => let? j := to_json (snd kv) in Some (fst kv, j)) kvs
  | _ => None
  end.

(** A required field and a field with a default. *)
Definition req {A} (f : pyval -> option A) (k : string) (kvs : list (string * pyval))
  : option A :=
  match lookup k kvs with Some v => f v | None => None end.

Definition dflt {A} (f : pyval -> option A) (d : A) (k : string)
    (kvs : list (string * pyval)) : option A :=
  match lookup k kvs with Some v => f v | None => Some d end.

(** [Optional[X] = None]. *)
Definition opt_field {A} (f : pyval -> option A) (k : string) kvs : option (option A) :=
  dflt (v_opt f) None k kvs.

(** The first member of a union that validates. *)
Fixpoint first_some {A} (fs : list (pyval -> option A)) (v : pyval) : option A :=
  match fs with
  | [] => None
  | f :: rest => match f v with Some a => Some a | None => first_some rest v end
  end.

Definition v_TodoItem (v : pyval) : option TodoItem :=
  match v with
  | PDict kvs =>
      let? i := req v_str "id" kvs in
      let? c := req v_str "content" kvs in
      let? st := req (v_literal ["pending"; "in_progress"; "completed"]) "status" kvs in
      let? p := req (v_literal ["high"; "medium"; "low"]) "priority" kvs in
      Some (mkTodoItem i c st p)
  | _ => None
  end.

Definition v_UsageInfo (v : pyval) : option UsageInfo :=
  match v with
  | PUsageInfo u => Some u
  | PDict kvs =>
      let? i := opt_field v_int "input_tokens" kvs in
      let? cc := opt_field v_int "cache_creation_input_tokens" kvs in
      let? cr := opt_field v_int "cache_read_input_tokens" kvs in
      let? o := opt_field v_int "output_tokens" kvs in
      let? st := opt_field v_str "service_tier" kvs in
      let? stu := opt_field v_dict_any "server_tool_use" kvs in
      Some (mkUsageInfo i cc cr o st stu)
  | _ => None
  end.

Definition v_ServerToolUsage (v : pyval) : option ServerToolUsage :=
  match v with
  | PDict kvs => let? n := req v_int "web_search_requests" kvs in Some (mkServerToolUsage n)
  | _ => None
  end.

(** [anthropic.types.Usage.model_validate]: a dict or a [Usage] instance;
    the SDK models do not validate from attributes. *)
Definition v_AnthropicUsage (v : pyval) : option AnthropicUsage :=
  match v with
  | PAnthropicUsage u => Some u
  | PDict kvs =>
      let? i := req v_int "input_tokens" kvs in
      let? o := req v_int "output_tokens" kvs in
      let? cc := opt_field v_int "cache_creation_input_tokens" kvs in
      let? cr := opt_field v_int "cache_read_input_tokens" kvs in
      let? stu := opt_field v_ServerToolUsage "server_tool_use" kvs in
      let? st := opt_field (v_literal ["standard"; "priority"; "batch"]) "service_tier" kvs in
      Some (mkAnthropicUsage i o cc cr stu st)
  | _ => None
  end.

(** A model validated from a dict only. *)
Definition from_dict {A} (f : list (string * pyval) -> option A) (v : pyval) : option A :=
  match v with PDict kvs => f kvs | _ => None end.

Definition v_TextContent : pyval -> option ContentItem := from_dict (fun kvs =>
  let? _ := req (v_literal ["text"]) "type" kvs in
  let? t := req v_str "text" kvs in
  Some (TextContent t)).

Definition v_ToolUseContent : pyval -> option ContentItem := from_dict (fun kvs =>
  let? _ := req (v_literal ["tool_use"]) "type" kvs in
  let? i := req v_str "id" kvs in
  let? n := req v_str "name" kvs in
  let? inp := req v_dict_any "input" kvs in
  Some (ToolUseContent i n inp)).

(** [Union[str, List[Dict[str, Any]]]]. *)
Definition v_ToolResultBody (v : pyval) : option ToolResultBody :=
  first_some [(fun v => option_map TRStr (v_str v));
              (fun v => option_map TRDicts (v_list v_dict_any v))] v.

Definition v_ToolResultContent : pyval -> option ContentItem := from_dict (fun kvs =>
  let? _ := req (v_literal ["tool_result"]) "type" kvs in
  let? i := req v_str "tool_use_id" kvs in
  let? c := req v_ToolResultBody "content" kvs in
  let? e := opt_field v_bool "is_error" kvs in
  Some (ToolResultContent i c e)).

Definition v_ThinkingContent : pyval -> option ContentItem := from_dict (fun kvs =>
  let? _ := req (v_literal ["thinking"]) "type" kvs in
  let? t := req v_str "thinking" kvs in
  let? sg := opt_field v_str "signature" kvs in
  Some (ThinkingContent t sg)).

Definition v_ImageSource : pyval -> option ImageSource := from_dict (fun kvs =>
  let? _ := req (v_literal ["base64"]) "type" kvs in
  let? m := req v_str "media_type" kvs in
  let? d := req v_str "data" kvs in
  Some (mkImageSource m d)).

Definition v_ImageContent : pyval -> option ContentItem := from_dict (fun kvs =>
  let? _ := req (v_literal ["image"]) "type" kvs in
  let? src := req v_ImageSource "source" kvs in
  Some (ImageContent src)).

(** The provider's [TextBlock], [ToolUseBlock] and [ThinkingBlock]
    (external SDK models; [citations] entries are objects). *)
Definition v_citation (v : pyval) : option json :=
  match v with PDict _ => to_json v | _ => None end.

Definition v_TextBlock : pyval -> option ContentItem := from_dict (fun kvs =>
  let? c := opt_field (v_list v_citation) "citations" kvs in
  let? t := req v_str "text" kvs in
  let? _ := req (v_literal ["text"]) "type" kvs in
  Some (TextBlock c t)).

Definition v_ToolUseBlock : pyval -> option ContentItem := from_dict (fun kvs =>
  let? i := req v_str "id" kvs in
  let? inp := req v_any "input" kvs in
  let? n := req v_str "name" kvs in
  let? _ := req (v_literal ["tool_use"]) "type" kvs in
  Some (ToolUseBlock i inp n)).

Definition v_ThinkingBlock : pyval -> option ContentItem := from_dict (fun kvs =>
  let? sg := req v_str "signature" kvs in
  let? t := req v_str "thinking" kvs in
  let? _ := req (v_literal ["thinking"]) "type" kvs in
  Some (ThinkingBlock sg t)).

(** A [ContentItem]-typed field: an instance passes through; a raw dict is
    tried against the union's members in declaration order.  (Every member
    requires its [type] literal.) *)
Definition v_ContentItem (v : pyval) : option ContentItem :=
  match v with
  | PContent c => Some c
  | _ => first_some [v_TextContent; v_ToolUseContent; v_ToolResultContent;
                     v_ThinkingContent; v_ImageContent;
                     v_TextBlock; v_ToolUseBlock; v_ThinkingBlock] v
  end.

Definition v_MessageContent (v : pyval) : option MessageContent :=
  first_some [(fun v => option_map MCStr (v_str v));
              (fun v => option_map MCItems (v_list v_ContentItem v))] v.

Definition v_UserMessage : pyval -> option UserMessage := from_dict (fun kvs =>
  let? _ := req (v_literal ["user"]) "role" kvs in
  let? c := req v_MessageContent "content" kvs in
  Some (mkUserMessage c)).

(** The literals of the SDK's [StopReason], the type of
    [AssistantMessage.stop_reason]. *)
Definition stop_reasons : list string :=
  ["end_turn"; "max_tokens"; "stop_sequence"; "tool_use"; "pause_turn"; "refusal";
   "model_context_window_exceeded"].

Definition v_AssistantMessage : pyval -> option AssistantMessage := from_dict (fun kvs =>
  let? i := req v_str "id" kvs in
  let? _ := req (v_literal ["message"]) "type" kvs in
  let? _ := req (v_literal ["assistant"]) "role" kvs in
  let? m := req v_str "model" kvs in
  let? c := req (v_list v_ContentItem) "content" kvs in
  let? sr := opt_field (v_literal stop_reasons) "stop_reason" kvs in
  let? ss := opt_field v_str "stop_sequence" kvs in
  let? u := opt_field v_UsageInfo "usage" kvs in
  Some (mkAssistantMessage i m c sr ss u)).

Definition v_FileInfo : pyval -> option FileInfo := from_dict (fun kvs =>
  let? p := req v_str "filePath" kvs in
  let? c := req v_str "content" kvs in
  let? n := req v_int "numLines" kvs in
  let? sl := req v_int "startLine" kvs in
  let? t := req v_int "totalLines" kvs in
  Some (mkFileInfo p c n sl t)).

Definition v_FileReadResult : pyval -> option FileReadResult := from_dict (fun kvs =>
  let? _ := req (v_literal ["text"]) "type" kvs in
  let? f := req v_FileInfo "file" kvs in
  Some (mkFileReadResult f)).

Definition v_CommandResult : pyval -> option CommandResult := from_dict (fun kvs =>
  let? o := req v_str "stdout" kvs in
  let? e := req v_str "stderr" kvs in
  let? i := req v_bool "interrupted" kvs in
  let? im := req v_bool "isImage" kvs in
  Some (mkCommandResult o e i im)).

Definition v_TodoResult : pyval -> option TodoResult := from_dict (fun kvs =>
  let? o := req (v_list v_TodoItem) "oldTodos" kvs in
  let? n := req (v_list v_TodoItem) "newTodos" kvs in
  Some (mkTodoResult o n)).

Definition v_EditResult : pyval -> option EditResult := from_dict (fun kvs =>
  let? os := opt_field v_str "oldString" kvs in
  let? ns := opt_field v_str "newString" kvs in
  let? ra := opt_field v_bool "replaceAll" kvs in
  let? of := opt_field v_str "originalFile" kvs in
  let? sp := opt_field v_any "structuredPatch" kvs in
  let? um := opt_field v_bool "userModified" kvs in
  Some (mkEditResult os ns ra of sp um)).

(** [ToolUseResult]: members tried in declaration order. *)
Definition v_ToolUseResult (v : pyval) : option ToolUseResult :=
  first_some [(fun v => option_map TURStr (v_str v));
              (fun v => option_map TURTodos (v_list v_TodoItem v));
              (fun v => option_map TURFileRead (v_FileReadResult v));
              (fun v => option_map TURCommand (v_CommandResult v));
              (fun v => option_map TURTodo (v_TodoResult v));
              (fun v => option_map TUREdit (v_EditResult v));
              (fun v => option_map TURContent (v_list v_ContentItem v))] v.

Definition v_Base (kvs : list (string * pyval)) : option BaseTranscriptEntry :=
  let? p := req (v_opt v_str) "parentUuid" kvs in
  let? sc := req v_bool "isSidechain" kvs in
  let? ut := req v_str "userType" kvs in
  let? cwd := req v_str "cwd" kvs in
  let? sid := req v_str "sessionId" kvs in
  let? ver := req v_str "version" kvs in
  let? u := req v_str "uuid" kvs in
  let? ts := req v_str "timestamp" kvs in
  let? im := opt_field v_bool "isMeta" kvs in
  Some (mkBase p sc ut cwd sid ver u ts im).

Definition v_UserTranscriptEntry : pyval -> option UserTranscriptEntry := from_dict (fun kvs =>
  let? b := v_Base kvs in
  let? _ := req (v_literal ["user"]) "type" kvs in
  let? m := req v_UserMessage "message" kvs in
  let? t := opt_field v_ToolUseResult "toolUseResult" kvs in
  Some (mkUserEntry b m t)).

Definition v_AssistantTranscriptEntry : pyval -> option AssistantTranscriptEntry :=
  from_dict (fun kvs =>
  let? b := v_Base kvs in
  let? _ := req (v_literal ["assistant"]) "type" kvs in
  let? m := req v_AssistantMessage "message" kvs in
  let? r := opt_field v_str "requestId" kvs in
  Some (mkAssistantEntry b m r)).

Definition v_SummaryTranscriptEntry : pyval -> option SummaryTranscriptEntry :=
  from_dict (fun kvs =>
  let? _ := req (v_literal ["summary"]) "type" kvs in
  let? s := req v_str "summary" kvs in
  let? l := req v_str "leafUuid" kvs in
  let? c := opt_field v_str "cwd" kvs in
  Some (mkSummaryEntry s l c)).

Definition v_SystemTranscriptEntry : pyval -> option SystemTranscriptEntry :=
  from_dict (fun kvs =>
  let? b := v_Base kvs in
  let? _ := req (v_literal ["system"]) "type" kvs in
  let? c := req v_str "content" kvs in
  let? l := opt_field v_str "level" kvs in
  Some (mkSystemEntry b c l)).

Definition v_QueueOperationTranscriptEntry : pyval -> option QueueOperationTranscriptEntry :=
  from_dict (fun kvs =>
  let? _ := req (v_literal ["queue-operation"]) "type" kvs in
  let? op := req (v_literal ["enqueue"; "dequeue"]) "operation" kvs in
  let? ts := req v_str "timestamp" kvs in
  let? sid := req v_str "sessionId" kvs in
  let? c := opt_field (v_list v_ContentItem) "content" kvs in
  Some (mkQueueEntry op ts sid c)).

(* ------------------------------------------------------------------ *)
(** ** Exceptions *)

(** The exceptions the module's functions can raise.  [ValidationError]
    names the model whose validation failed. *)
Inductive exn :=
| ValueError (msg : string)
| ValidationError (model : string)
| TypeError
| AttributeError
| KeyError (key : string).

Inductive res (A : Type) : Type :=
| Ok (a : A)
| Err (e : exn).
Arguments Ok {A} a.
Arguments Err {A} e.

Definition ret {A} (a : A) : res A := Ok a.

Definition bind {A B} (m : res A) (k : A -> res B) : res B :=
  match m with Ok a => k a | Err e => Err e end.

Notation "x <- m ;; k" := (bind m (fun x => k)) (at level 61, m at next level, right associativity).

(** [try: m  except Exception as e: h(e)]. *)
Definition try_except {A} (m : res A) (h : exn -> res A) : res A :=
  match m with Ok a => Ok a | Err e => h e end.

(** [Model.model_validate(...)]: raise on failure. *)
Definition validate {A} (model : string) (o : option A) : res A :=
  match o with Some a => Ok a | None => Err (ValidationError model) end.

Fixpoint mapM {A B} (f : A -> res B) (l : list A) : res (list B) :=
  match l with
  | [] => ret []
  | x :: rest => y <- f x ;; ys <- mapM f rest ;; ret (y :: ys)
  end.

(* ------------------------------------------------------------------ *)
(** ** [normalize_usage_info] *)

Definition usage_info_fields : list string :=
  ["input_tokens"; "cache_creation_input_tokens"; "cache_read_input_tokens";
   "output_tokens"; "service_tier"; "server_tool_use"].

(** [hasattr(v, a)]: model instances have their fields as attributes; JSON
    data (dicts included) has none of the names used here. *)
Definition hasattr (v : pyval) (a : string) : bool :=
  match v with
  | PUsageInfo _ | PAnthropicUsage _ => existsb (String.eqb a) usage_info_fields
  | PObject attrs => dict_has a attrs
  | _ => false
  end.

(** [getattr(v, a, None)], for the objects that reach the duck-typed
    branch (usage instances are returned by earlier branches). *)
Definition getattr_none (v : pyval) (a : string) : pyval :=
  match v with
  | PObject attrs => match lookup a attrs with Some x => x | None => PNone end
  | _ => PNone
  end.

Definition is_dict (v : pyval) : bool :=
  match v with PDict _ => true | _ => false end.

(** [UsageInfo.from_anthropic_usage]; [server_tool_use.model_dump()]. *)
Definition from_anthropic_usage (u : AnthropicUsage) : UsageInfo :=
  mkUsageInfo (Some (au_input_tokens u)) (au_cache_creation_input_tokens u)
    (au_cache_read_input_tokens u) (Some (au_output_tokens u)) (au_service_tier u)
    (match au_server_tool_use u with
     | Some s => Some [("web_search_requests", JInt (stu_web_search_requests s))]
     | None => None
     end).

Definition normalize_usage_info (usage_data : pyval) : res (option UsageInfo) :=
  match usage_data with
  | PNone => ret None
  | PUsageInfo u => ret (Some u)
  | PAnthropicUsage u => ret (Some (from_anthropic_usage u))
  | _ =>
      if hasattr usage_data "input_tokens" && hasattr usage_data "output_tokens" then
        try_except
          (a <- validate "Usage" (v_AnthropicUsage usage_data) ;;
           ret (Some (from_anthropic_usage a)))
          (fun _ =>
             u <- validate "UsageInfo" (v_UsageInfo (PDict
                    [("input_tokens", getattr_none usage_data "input_tokens");
                     ("cache_creation_input_tokens",
                        getattr_none usage_data "cache_creation_input_tokens");
                     ("cache_read_input_tokens",
                        getattr_none usage_data "cache_read_input_tokens");
                     ("output_tokens", getattr_none usage_data "output_tokens");
                     ("service_tier", getattr_none usage_data "service_tier");
                     ("server_tool_use", getattr_none usage_data "server_tool_use")])) ;;
             ret (Some u))
      else if is_dict usage_data then
        u <- validate "UsageInfo" (v_UsageInfo usage_data) ;; ret (Some u)
      else ret None
  end.

Definition opt_int_py (o : option Z) : pyval :=
  match o with Some z => PInt z | None => PNone end.

Definition opt_str_py (o : option string) : pyval :=
  match o with Some s => PStr s | None => PNone end.

Definition opt_dict_py (o : option (list (string * json))) : pyval :=
  match o with Some kvs => PDict (pkvs kvs) | None => PNone end.

(** [UsageInfo.to_anthropic_usage]: [None] unless both token counts are
    set; otherwise the keyword construction of a [Usage], which validates. *)
Definition to_anthropic_usage (u : UsageInfo) : res (option AnthropicUsage) :=
  match ui_input_tokens u, ui_output_tokens u with
  | Some i, Some o =>
      a <- validate "Usage" (v_AnthropicUsage (PDict
             [("input_tokens", PInt i); ("output_tokens", PInt o);
              ("cache_creation_input_tokens", opt_int_py (ui_cache_creation_input_tokens u));
              ("cache_read_input_tokens", opt_int_py (ui_cache_read_input_tokens u));
              ("service_tier", opt_str_py (ui_service_tier u));
              ("server_tool_use", opt_dict_py (ui_server_tool_use u))])) ;;
      ret (Some a)
  | _, _ => ret None
  end.

(* ------------------------------------------------------------------ *)
(** ** [parse_content_item] and [parse_message_content] *)

(** [item_data.get(k, d)]: only dicts have [get]. *)
Definition json_get (j : json) (k : string) (d : json) : res json :=
  match j with
  | JDict kvs => match lookup k kvs with Some v => ret v | None => ret d end
  | _ => Err AttributeError
  end.

(** [v == "lit"] for a JSON value. *)
Definition json_eq_str (j : json) (lit : string) : bool :=
  match j with JStr s => String.eqb s lit | _ => false end.

(** The body of the outer [try] of [parse_content_item]. *)
Definition parse_content_item_try (item_data : json) : res ContentItem :=
  let v := of_json item_data in
  content_type <- json_get item_data "type" (JStr "") ;;
  if json_eq_str content_type "text" then
    try_except (validate "TextBlock" (v_TextBlock v))
               (fun _ => validate "TextContent" (v_TextContent v))
  else if json_eq_str content_type "tool_use" then
    try_except (validate "ToolUseBlock" (v_ToolUseBlock v))
               (fun _ => validate "ToolUseContent" (v_ToolUseContent v))
  else if json_eq_str content_type "thinking" then
    try_except (validate "ThinkingBlock" (v_ThinkingBlock v))
               (fun _ => validate "ThinkingContent" (v_ThinkingContent v))
  else if json_eq_str content_type "tool_result" then
    validate "ToolResultContent" (v_ToolResultContent v)
  else if json_eq_str content_type "image" then
    validate "ImageContent" (v_ImageContent v)
  else
    ret (TextContent (py_str item_data)).

Definition parse_content_item (item_data : json) : res ContentItem :=
  try_except (parse_content_item_try item_data)
             (fun _ => ret (TextContent (py_str item_data))).

(** The result is stored back into a dict: a string or a list of
    [ContentItem] instances. *)
Definition parse_message_content (content_data : json) : res pyval :=
  match content_data with
  | JStr s => ret (PStr s)
  | JList l => cs <- mapM parse_content_item l ;; ret (PList (map PContent cs))
  | _ => ret (PStr (py_str content_data))
  end.

(* ------------------------------------------------------------------ *)
(** ** [parse_transcript_entry] *)

Fixpoint is_prefix (p s : string) : bool :=
  match p, s with
  | EmptyString, _ => true
  | String c p', String d s' => Ascii.eqb c d && is_prefix p' s'
  | String _ _, EmptyString => false
  end.

(** [needle in s] for strings. *)
Fixpoint is_substring (needle s : string) : bool :=
  is_prefix needle s ||
  match s with EmptyString => false | String _ s' => is_substring needle s' end.

(** [needle in v]: key of a dict, substring of a string, element of a list;
    other JSON values are not iterable. *)
Definition json_in (needle : string) (j : json) : res bool :=
  match j with
  | JDict kvs => ret (dict_has needle kvs)
  | JStr s => ret (is_substring needle s)
  | JList l => ret (existsb (fun x => json_eq_str x needle) l)
  | _ => Err TypeError
  end.

(** [v.copy()]: dicts and lists only. *)
Definition json_copy (j : json) : res json :=
  match j with
  | JDict _ | JList _ => ret j
  | _ => Err AttributeError
  end.

(** [v[k]] with a string key. *)
Definition json_getitem (j : json) (k : string) : res json :=
  match j with
  | JDict kvs => match lookup k kvs with Some v => ret v | None => Err (KeyError k) end
  | _ => Err TypeError
  end.

Definition json_is_dict (j : json) : bool :=
  match j with JDict _ => true | _ => false end.

Definition usage_to_py (u : option UsageInfo) : pyval :=
  match u with Some u => PUsageInfo u | None => PNone end.

(** The [user] branch.  [data_copy] starts as the JSON data; the message
    content and an MCP-style [toolUseResult] are replaced by their parsed
    form.  First step: [message.content]. *)
Definition user_parse_message (data : list (string * json))
  : res (list (string * pyval)) :=
  if dict_has "message" data then
    msg <- json_getitem (JDict data) "message" ;;
    has_content <- json_in "content" msg ;;
    if has_content then
      msg_copy <- json_copy msg ;;
      c <- json_getitem msg_copy "content" ;;
      pc <- parse_message_content c ;;
      match msg_copy with
      | JDict mkvs =>
          ret (dict_set "message" (PDict (dict_set "content" pc (pkvs mkvs))) (pkvs data))
      | _ => Err TypeError
      end
    else ret (pkvs data)
  else ret (pkvs data).

(** Second step: a [toolUseResult] list whose first element is a dict with a
    [type] key is parsed item by item, dicts only.  ([data_copy]'s
    [toolUseResult] is still the JSON value of [data].) *)
Definition user_parse_tool_use_result (data : list (string * json))
    (data_copy : list (string * pyval)) : res (list (string * pyval)) :=
  match lookup "toolUseResult" data with
  | Some (JList tool_use_result) =>
      match tool_use_result with
      | JDict first :: _ =>
          if dict_has "type" first then
            cs <- mapM parse_content_item (filter json_is_dict tool_use_result) ;;
            ret (dict_set "toolUseResult" (PList (map PContent cs)) data_copy)
          else ret data_copy
      | _ => ret data_copy
      end
  | _ => ret data_copy
  end.

Definition parse_user_entry (data : list (string * json)) : res TranscriptEntry :=
  data_copy <- user_parse_message data ;;
  data_copy <- user_parse_tool_use_result data data_copy ;;
  u <- validate "UserTranscriptEntry" (v_UserTranscriptEntry (PDict data_copy)) ;;
  ret (EUser u).

(** [AnthropicMessage.model_validate] (external SDK model); its content
    blocks are discriminated by [type]. *)
Definition v_ContentBlock (v : pyval) : option ContentItem :=
  match v with
  | PDict kvs =>
      match lookup "type" kvs with
      | Some (PStr "text") => v_TextBlock v
      | Some (PStr "tool_use") => v_ToolUseBlock v
      | Some (PStr "thinking") => v_ThinkingBlock v
      | _ => None
      end
  | _ => None
  end.

Definition v_AnthropicMessage : pyval -> option unit := from_dict (fun kvs =>
  let? _ := req v_str "id" kvs in
  let? _ := req (v_list v_ContentBlock) "content" kvs in
  let? _ := req v_str "model" kvs in
  let? _ := req (v_literal ["assistant"]) "role" kvs in
  let? _ := opt_field (v_literal stop_reasons) "stop_reason" kvs in
  let? _ := opt_field v_str "stop_sequence" kvs in
  let? _ := req (v_literal ["message"]) "type" kvs in
  let? _ := req v_AnthropicUsage "usage" kvs in
  Some tt).

Definition anthropic_message_check (message_data : json) : res unit :=
  _ <- validate "Message" (v_AnthropicMessage (of_json message_data)) ;; ret tt.

(** The compatibility check of the [assistant] branch, for any checker:
    [try: check(data_copy["message"]) except Exception: pass]. *)
Definition assistant_compat_check (check : json -> res unit)
    (data : list (string * json)) : res unit :=
  if dict_has "message" data then
    try_except (message_data <- json_getitem (JDict data) "message" ;; check message_data)
               (fun _ => ret tt)
  else ret tt.

(** The standard parsing path of the [assistant] branch. *)
Definition assistant_standard_path (data : list (string * json)) : res TranscriptEntry :=
  data_copy <-
    (if dict_has "message" data then
       msg <- json_getitem (JDict data) "message" ;;
       has_content <- json_in "content" msg ;;
       if has_content then
         message_copy <- json_copy msg ;;
         c <- json_getitem message_copy "content" ;;
         pc <- parse_message_content c ;;
         match message_copy with
         | JDict mkvs =>
             let mc := dict_set "content" pc (pkvs mkvs) in
             mc <- (if dict_has "usage" mc then
                      u <- json_getitem message_copy "usage" ;;
                      nu <- normalize_usage_info (of_json u) ;;
                      ret (dict_set "usage" (usage_to_py nu) mc)
                    else ret mc) ;;
             ret (dict_set "message" (PDict mc) (pkvs data))
         | _ => Err TypeError
         end
       else ret (pkvs data)
     else ret (pkvs data)) ;;
  a <- validate "AssistantTranscriptEntry" (v_AssistantTranscriptEntry (PDict data_copy)) ;;
  ret (EAssistant a).

Definition parse_assistant_entry_with (check : json -> res unit)
    (data : list (string * json)) : res TranscriptEntry :=
  _ <- assistant_compat_check check data ;;
  assistant_standard_path data.

Definition parse_assistant_entry (data : list (string * json)) : res TranscriptEntry :=
  parse_assistant_entry_with anthropic_message_check data.

Definition parse_queue_operation_entry (data : list (string * json)) : res TranscriptEntry :=
  data_copy <-
    (match lookup "content" data with
     | Some (JList l) =>
         pc <- parse_message_content (JList l) ;; ret (dict_set "content" pc (pkvs data))
     | _ => ret (pkvs data)
     end) ;;
  q <- validate "QueueOperationTranscriptEntry"
         (v_QueueOperationTranscriptEntry (PDict data_copy)) ;;
  ret (EQueueOperation q).

Definition unknown_type_message (entry_type : json) : string :=
  "Unknown transcript entry type: " ++ py_str entry_type.

Definition parse_transcript_entry (data : list (string * json)) : res TranscriptEntry :=
  let entry_type := match lookup "type" data with Some t => t | None => JNull end in
  if json_eq_str entry_type "user" then parse_user_entry data
  else if json_eq_str entry_type "assistant" then parse_assistant_entry data
  else if json_eq_str entry_type "summary" then
    s <- validate "SummaryTranscriptEntry" (v_SummaryTranscriptEntry (PDict (pkvs data))) ;;
    ret (ESummary s)
  else if json_eq_str entry_type "system" then
    s <- validate "SystemTranscriptEntry" (v_SystemTranscriptEntry (PDict (pkvs data))) ;;
    ret (ESystem s)
  else if json_eq_str entry_type "queue-operation" then parse_queue_operation_entry data
  else Err (ValueError (unknown_type_message entry_type)).

(* ------------------------------------------------------------------ *)
(** ** [AssistantMessage.from_anthropic_message]

    The provider's [Message] instance: [type] and [role] are the literals
    ["message"] and ["assistant"]; its content blocks are instances. *)

Record AnthropicMessage := mkAnthropicMessage {
  amsg_id : string;
  amsg_model : string;
  amsg_content : list ContentItem;
  amsg_stop_reason : option string;
  amsg_stop_sequence : option string;
  amsg_usage : AnthropicUsage }.

(** The keyword arguments are evaluated ([normalize_usage_info] last), then
    the constructor validates them. *)
Definition from_anthropic_message (m : AnthropicMessage) : res AssistantMessage :=
  u <- normalize_usage_info (PAnthropicUsage (amsg_usage m)) ;;
  validate "AssistantMessage" (v_AssistantMessage (PDict
    [("id", PStr (amsg_id m)); ("type", PStr "message"); ("role", PStr "assistant");
     ("model", PStr (amsg_model m)); ("content", PList (map PContent (amsg_content m)));
     ("stop_reason", opt_str_py (amsg_stop_reason m));
     ("stop_sequence", opt_str_py (amsg_stop_sequence m));
     ("usage", usage_to_py u)])).

(* ------------------------------------------------------------------ *)
(** ** Encoding back to JSON

    Pydantic's [model_dump(mode="json")] of the models above: every field,
    in declaration order, [None] as [null]. *)

Definition dump_opt {A} (f : A -> json) (o : option A) : json :=
  match o with Some a => f a | None => JNull end.

Definition dump_ContentItem (c : ContentItem) : json :=
  match c with
  | TextContent t => JDict [("type", JStr "text"); ("text", JStr t)]
  | ToolUseContent i n inp =>
      JDict [("type", JStr "tool_use"); ("id", JStr i); ("name", JStr n); ("input", JDict inp)]
  | ToolResultContent i body e =>
      JDict [("type", JStr "tool_result"); ("tool_use_id", JStr i);
             ("content", match body with
                         | TRStr s => JStr s
                         | TRDicts l => JList (map JDict l)
                         end);
             ("is_error", dump_opt JBool e)]
  | ThinkingContent t sg =>
      JDict [("type", JStr "thinking"); ("thinking", JStr t); ("signature", dump_opt JStr sg)]
  | ImageContent src =>
      JDict [("type", JStr "image");
             ("source", JDict [("type", JStr "base64"); ("media_type", JStr (src_media_type src));
                               ("data", JStr (src_data src))])]
  | TextBlock cit t =>
      JDict [("citations", dump_opt JList cit); ("text", JStr t); ("type", JStr "text")]
  | ToolUseBlock i inp n =>
      JDict [("id", JStr i); ("input", inp); ("name", JStr n); ("type", JStr "tool_use")]
  | ThinkingBlock sg t =>
      JDict [("signature", JStr sg); ("thinking", JStr t); ("type", JStr "thinking")]
  end.

Definition dump_UsageInfo (u : UsageInfo) : json :=
  JDict [("input_tokens", dump_opt JInt (ui_input_tokens u));
         ("cache_creation_input_tokens", dump_opt JInt (ui_cache_creation_input_tokens u));
         ("cache_read_input_tokens", dump_opt JInt (ui_cache_read_input_tokens u));
         ("output_tokens", dump_opt JInt (ui_output_tokens u));
         ("service_tier", dump_opt JStr (ui_service_tier u));
         ("server_tool_use", dump_opt JDict (ui_server_tool_use u))].

Definition dump_TodoItem (t : TodoItem) : json :=
  JDict [("id", JStr (todo_id t)); ("content", JStr (todo_content t));
         ("status", JStr (todo_status t)); ("priority", JStr (todo_priority t))].

Definition dump_ToolUseResult (r : ToolUseResult) : json :=
  match r with
  | TURStr s => JStr s
  | TURTodos l => JList (map dump_TodoItem l)
  | TURFileRead f =>
      let fi := frr_file f in
      JDict [("type", JStr "text");
             ("file", JDict [("filePath", JStr (fi_filePath fi)); ("content", JStr (fi_content fi));
                             ("numLines", JInt (fi_numLines fi));
                             ("startLine", JInt (fi_startLine fi));
                             ("totalLines", JInt (fi_totalLines fi))])]
  | TURCommand c =>
      JDict [("stdout", JStr (cr_stdout c)); ("stderr", JStr (cr_stderr c));
             ("interrupted", JBool (cr_interrupted c)); ("isImage", JBool (cr_isImage c))]
  | TURTodo t =>
      JDict [("oldTodos", JList (map dump_TodoItem (tr_oldTodos t)));
             ("newTodos", JList (map dump_TodoItem (tr_newTodos t)))]
  | TUREdit e =>
      JDict [("oldString", dump_opt JStr (er_oldString e));
             ("newString", dump_opt JStr (er_newString e));
             ("replaceAll", dump_opt JBool (er_replaceAll e));
             ("originalFile", dump_opt JStr (er_originalFile e));
             ("structuredPatch", dump_opt (fun j => j) (er_structuredPatch e));
             ("userModified", dump_opt JBool (er_userModified e))]
  | TURContent l => JList (map dump_ContentItem l)
  end.

Definition dump_Base (b : BaseTranscriptEntry) : list (string * json) :=
  [("parentUuid", dump_opt JStr (b_parentUuid b)); ("isSidechain", JBool (b_isSidechain b));
   ("userType", JStr (b_userType b)); ("cwd", JStr (b_cwd b));
   ("sessionId", JStr (b_sessionId b)); ("version", JStr (b_version b));
   ("uuid", JStr (b_uuid b)); ("timestamp", JStr (b_timestamp b));
   ("isMeta", dump_opt JBool (b_isMeta b))].

(** The top-level dict of an entry. *)
Definition dump_entry (e : TranscriptEntry) : list (string * json) :=
  match e with
  | EUser u =>
      dump_Base (ue_base u) ++
      [("type", JStr "user");
       ("message", JDict [("role", JStr "user");
                          ("content", match um_content (ue_message u) with
                                      | MCStr s => JStr s
                                      | MCItems l => JList (map dump_ContentItem l)
                                      end)]);
       ("toolUseResult", dump_opt dump_ToolUseResult (ue_toolUseResult u))]
  | EAssistant a =>
      let m := ae_message a in
      dump_Base (ae_base a) ++
      [("type", JStr "assistant");
       ("message", JDict [("id", JStr (am_id m)); ("type", JStr "message");
                          ("role", JStr "assistant"); ("model", JStr (am_model m));
                          ("content", JList (map dump_ContentItem (am_content m)));
                          ("stop_reason", dump_opt JStr (am_stop_reason m));
                          ("stop_sequence", dump_opt JStr (am_stop_sequence m));
                          ("usage", dump_opt dump_UsageInfo (am_usage m))]);
       ("requestId", dump_opt JStr (ae_requestId a))]
  | ESummary s =>
      [("type", JStr "summary"); ("summary", JStr (se_summary s));
       ("leafUuid", JStr (se_leafUuid s)); ("cwd", dump_opt JStr (se_cwd s))]
  | ESystem s =>
      dump_Base (sy_base s) ++
      [("type", JStr "system"); ("content", JStr (sy_content s));
       ("level", dump_opt JStr (sy_level s))]
  | EQueueOperation q =>
      [("type", JStr "queue-operation"); ("operation", JStr (qe_operation q));
       ("timestamp", JStr (qe_timestamp q)); ("sessionId", JStr (qe_sessionId q));
       ("content", dump_opt (fun l => JList (map dump_ContentItem l)) (qe_content q))]
  end.

(* ------------------------------------------------------------------ *)
(** ** Definitions used by the properties *)

(** The [type] values [parse_content_item] recognises. *)
Definition content_types : list string :=
  ["text"; "tool_use"; "thinking"; "tool_result"; "image"].

(** The [assistant] branch as the spec words it: the standard parsing path
    with the compatibility check removed. *)
Definition parse_assistant_entry_without_check (data : list (string * json))
  : res TranscriptEntry :=
  assistant_standard_path data.

(** The five [type] tags of [parse_transcript_entry]. *)
Definition entry_types : list string :=
  ["user"; "assistant"; "summary"; "system"; "queue-operation"].

Definition entry_kind (e : TranscriptEntry) : string :=
  match e with
  | EUser _ => "user"
  | EAssistant _ => "assistant"
  | ESummary _ => "summary"
  | ESystem _ => "system"
  | EQueueOperation _ => "queue-operation"
  end.

(** The unknown-type error of [parse_transcript_entry] is its only
    [ValueError]. *)
Definition is_unknown_type_error (x : exn) : bool :=
  match x with ValueError _ => true | _ => false end.

(** A failed validation of one of the models. *)
Definition is_validation_error (x : exn) : bool :=
  match x with ValidationError _ => true | _ => false end.

(** A computation that returns a value satisfying [P] or raises a
    validation error. *)
Definition safe {A} (P : A -> Prop) (r : res A) : Prop :=
  match r with Ok a => P a | Err x => is_validation_error x = true end.

(** The [message] of a record is absent or an object. *)
Definition message_is_object (data : list (string * json)) : bool :=
  match lookup "message" data with Some m => json_is_dict m | None => true end.

(** Concrete records: the shared metadata of a session, a [user] record
    with a given list as [toolUseResult], and a [user] record whose message
    holds an item of unknown type. *)
Definition example_base_fields : list (string * json) :=
  [("parentUuid", JNull); ("isSidechain", JBool false); ("userType", JStr "external");
   ("cwd", JStr "/repo"); ("sessionId", JStr "s1"); ("version", JStr "1.0.0");
   ("uuid", JStr "u1"); ("timestamp", JStr "2025-01-01T00:00:00Z")].

Definition example_base : BaseTranscriptEntry :=
  mkBase None false "external" "/repo" "s1" "1.0.0" "u1" "2025-01-01T00:00:00Z" None.

Definition mcp_user_record (tool_use_result : list json) : list (string * json) :=
  ("type", JStr "user") :: example_base_fields ++
  [("message", JDict [("role", JStr "user"); ("content", JStr "run it")]);
   ("toolUseResult", JList tool_use_result)].

Definition ok_text_item : json := JDict [("type", JStr "text"); ("text", JStr "ok")].

Definition mcp_user_entry : UserTranscriptEntry :=
  mkUserEntry example_base (mkUserMessage (MCStr "run it"))
    (Some (TURContent [TextBlock None "ok"])).

Definition unknown_item_user_record : list (string * json) :=
  ("type", JStr "user") :: example_base_fields ++
  [("message", JDict [("role", JStr "user");
                      ("content", JList [JDict [("type", JStr "widget")]])])].

(** Service tiers and stop reasons the provider's literals accept. *)
Definition valid_service_tier (o : option string) : bool :=
  match o with
  | None => true
  | Some s => existsb (String.eqb s) ["standard"; "priority"; "batch"]
  end.

Definition valid_stop_reason (o : option string) : bool :=
  match o with None => true | Some s => existsb (String.eqb s) stop_reasons end.

(** What an item becomes when its encoding is decoded again: the local text
    and tool-use shapes, and a local thinking item with a signature, come
    back as the provider's blocks. *)
Definition redecoded_item (c : ContentItem) : ContentItem :=
  match c with
  | TextContent t => TextBlock None t
  | ToolUseContent i n inp => ToolUseBlock i (JDict inp) n
  | ThinkingContent t (Some sg) => ThinkingBlock sg t
  | _ => c
  end.

Definition citations_are_objects (c : ContentItem) : bool :=
  match c with TextBlock (Some l) _ => forallb json_is_dict l | _ => true end.


(** Every top-level key that [parse_transcript_entry] or the entry models
    read. *)
Definition decoder_keys : list string :=
  ["type"; "message"; "toolUseResult"; "parentUuid"; "isSidechain"; "userType"; "cwd";
   "sessionId"; "version"; "uuid"; "timestamp"; "isMeta"; "requestId"; "summary";
   "leafUuid"; "content"; "level"; "operation"].

(** Two dicts that agree on every key but [k]. *)
Definition same_except {A} (k : string) (l1 l2 : list (string * A)) : Prop :=
  forall k', k' <> k -> lookup k' l1 = lookup k' l2.

(** Two results related by [R], or the same exception. *)
Definition res_rel {A} (R : A -> A -> Prop) (r1 r2 : res A) : Prop :=
  match r1, r2 with
  | Ok a, Ok b => R a b
  | Err e1, Err e2 => e1 = e2
  | _, _ => False
  end.

(** More concrete records. *)
Definition user_record_with_message (msg : json) : list (string * json) :=
  ("type", JStr "user") :: example_base_fields ++ [("message", msg)].

Definition user_record_with_content (content : json) : list (string * json) :=
  user_record_with_message (JDict [("role", JStr "user"); ("content", content)]).

Definition assistant_record_with_message (msg : list (string * json)) : list (string * json) :=
  ("type", JStr "assistant") :: example_base_fields ++ [("message", JDict msg)].

Definition assistant_message_fields (content usage : json) : list (string * json) :=
  [("id", JStr "msg_1"); ("type", JStr "message"); ("role", JStr "assistant");
   ("model", JStr "m"); ("content", content); ("usage", usage)].

Definition queue_record (content : json) : list (string * json) :=
  [("type", JStr "queue-operation"); ("operation", JStr "enqueue");
   ("timestamp", JStr "2025-01-01T00:00:00Z"); ("sessionId", JStr "s1");
   ("content", content)].


(** What a decoded entry satisfies, by the validators and the preprocessing:
    the [Literal] fields of todo items hold one of their values, an edit
    result's [structuredPatch] is not [null], a content-list tool result is
    not empty (the todo-list member takes the empty list first), and
    text-block citations are objects. *)
Definition todo_ok (t : TodoItem) : bool :=
  existsb (String.eqb (todo_status t)) ["pending"; "in_progress"; "completed"] &&
  existsb (String.eqb (todo_priority t)) ["high"; "medium"; "low"].

Definition tool_use_result_ok (r : ToolUseResult) : bool :=
  match r with
  | TURTodos l => forallb todo_ok l
  | TURTodo tr => forallb todo_ok (tr_oldTodos tr) && forallb todo_ok (tr_newTodos tr)
  | TUREdit er => match er_structuredPatch er with Some JNull => false | _ => true end
  | TURContent [] => false
  | TURContent l => forallb citations_are_objects l
  | _ => true
  end.

Definition tur_opt_ok (t : option ToolUseResult) : bool :=
  match t with Some r => tool_use_result_ok r | None => true end.

Definition stop_ok (o : option string) : bool :=
  match o with Some s => existsb (String.eqb s) stop_reasons | None => true end.

(** The content items of a message, of a tool result and of an entry. *)
Definition message_items (mc : MessageContent) : list ContentItem :=
  match mc with MCStr _ => [] | MCItems l => l end.

Definition tool_use_result_items (r : option ToolUseResult) : list ContentItem :=
  match r with Some (TURContent l) => l | _ => [] end.

Definition entry_items (e : TranscriptEntry) : list ContentItem :=
  match e with
  | EUser u =>
      message_items (um_content (ue_message u)) ++ tool_use_result_items (ue_toolUseResult u)
  | EAssistant a => am_content (ae_message a)
  | EQueueOperation q => match qe_content q with Some l => l | None => [] end
  | ESummary _ | ESystem _ => []
  end.

Definition entry_ok (e : TranscriptEntry) : bool :=
  match e with
  | EUser u => forallb citations_are_objects (message_items (um_content (ue_message u))) &&
               tur_opt_ok (ue_toolUseResult u)
  | EAssistant a => forallb citations_are_objects (am_content (ae_message a)) &&
                    stop_ok (am_stop_reason (ae_message a))
  | EQueueOperation q =>
      forallb citations_are_objects (match qe_content q with Some l => l | None => [] end) &&
      existsb (String.eqb (qe_operation q)) ["enqueue"; "dequeue"]
  | ESummary _ | ESystem _ => true
  end.

(** The items whose encoding decodes to another shape: the local text and
    tool-use items, and a local thinking item with a signature. *)
Definition local_item (c : ContentItem) : bool :=
  match c with
  | TextContent _ | ToolUseContent _ _ _ | ThinkingContent _ (Some _) => true
  | _ => false
  end.

(** An entry with every content item replaced by [redecoded_item] of it. *)
Definition redecoded_message_content (mc : MessageContent) : MessageContent :=
  match mc with MCStr s => MCStr s | MCItems l => MCItems (map redecoded_item l) end.

Definition redecoded_tool_use_result (r : ToolUseResult) : ToolUseResult :=
  match r with TURContent l => TURContent (map redecoded_item l) | _ => r end.

Definition redecoded_entry (e : TranscriptEntry) : TranscriptEntry :=
  match e with
  | EUser u =>
      EUser (mkUserEntry (ue_base u)
               (mkUserMessage (redecoded_message_content (um_content (ue_message u))))
               (option_map redecoded_tool_use_result (ue_toolUseResult u)))
  | EAssistant a =>
      let m := ae_message a in
      EAssistant (mkAssistantEntry (ae_base a)
                    (mkAssistantMessage (am_id m) (am_model m) (map redecoded_item (am_content m))
                       (am_stop_reason m) (am_stop_sequence m) (am_usage m))
                    (ae_requestId a))
  | EQueueOperation q =>
      EQueueOperation (mkQueueEntry (qe_operation q) (qe_timestamp q) (qe_sessionId q)
                         (option_map (map redecoded_item) (qe_content q)))
  | ESummary _ | ESystem _ => e
  end.

(** The values the preprocessing stores into the copied dicts: a list whose
    content-item instances have object citations, and a message whose
    [content] is such a value. *)
Definition content_item_ok (x : pyval) : bool :=
  match x with PContent c => citations_are_objects c | _ => true end.

Definition pv_items_ok (v : pyval) : bool :=
  match v with PList l => forallb content_item_ok l | _ => true end.

Definition msg_ok (v : pyval) : bool :=
  match v with
  | PDict kvs => match lookup "content" kvs with Some c => pv_items_ok c | None => true end
  | _ => true
  end.

Definition val_ok (v : pyval) : bool := pv_items_ok v && msg_ok v.

Definition dict_ok (dc : list (string * pyval)) : Prop :=
  forall k v, lookup k dc = Some v -> val_ok v = true.

(** The keys of [BaseTranscriptEntry]. *)
Definition base_keys : list string :=
  ["parentUuid"; "isSidechain"; "userType"; "cwd"; "sessionId"; "version"; "uuid";
   "timestamp"; "isMeta"].

(** The message content and the tool result as the preprocessing stores
    them when an encoded entry is decoded again. *)
Definition message_content_py (mc : MessageContent) : pyval :=
  match mc with MCStr s => PStr s | MCItems l => PList (map PContent l) end.

Definition tool_use_result_py (t : option ToolUseResult) : pyval :=
  match t with
  | Some (TURContent l) => PList (map PContent (map redecoded_item l))
  | _ => of_json (dump_opt dump_ToolUseResult t)
  end.


(* ================================================================== *)
(** * Properties *)

(** ** Dictionaries and the exception monad *)

Lemma lookup_dict_set_eq {A} (k : string) (v : A) kvs :
  lookup k (dict_set k v kvs) = Some v.
Proof.
  induction kvs as [| [k' v'] rest IH]; simpl.
  - now rewrite String.eqb_refl.
  - destruct (String.eqb k k') eqn:E; simpl.
    + apply String.eqb_eq in E; subst. now rewrite String.eqb_refl.
    + now rewrite E.
Qed.

Lemma lookup_dict_set_neq {A} (k k' : string) (v : A) kvs :
  k <> k' -> lookup k' (dict_set k v kvs) = lookup k' kvs.
Proof.
  intros Hne. induction kvs as [| [k0 v0] rest IH]; simpl.
  - destruct (String.eqb k' k) eqn:E; [apply String.eqb_eq in E; congruence | reflexivity].
  - destruct (String.eqb k k0) eqn:E; simpl.
    + apply String.eqb_eq in E; subst.
      destruct (String.eqb k' k0) eqn:E'; [apply String.eqb_eq in E'; congruence | reflexivity].
    + now rewrite IH.
Qed.

Lemma lookup_pkvs k kvs : lookup k (pkvs kvs) = option_map of_json (lookup k kvs).
Proof.
  induction kvs as [| [k' v'] rest IH]; simpl; [reflexivity |].
  destruct (String.eqb k k'); [reflexivity | exact IH].
Qed.

Lemma mapM_Forall2 {A B} (f : A -> res B) l ys :
  mapM f l = Ok ys -> Forall2 (fun x y => f x = Ok y) l ys.
Proof.
  revert ys; induction l as [| x rest IH]; intros ys H; simpl in H.
  - inversion H; constructor.
  - destruct (f x) as [y | e] eqn:Ef; [| discriminate].
    simpl in H. destruct (mapM f rest) as [ys' | e] eqn:Er; [| discriminate].
    simpl in H. inversion H; subst. constructor; [exact Ef | now apply IH].
Qed.

Lemma mapM_total {A B} (f : A -> res B) :
  (forall x, exists y, f x = Ok y) -> forall l, exists ys, mapM f l = Ok ys.
Proof.
  intros Hf l; induction l as [| x rest [ys IH]]; simpl.
  - now exists [].
  - destruct (Hf x) as [y Hy]. rewrite Hy; simpl; rewrite IH; simpl. now exists (y :: ys).
Qed.

(** ** The content-item decoder *)

Lemma parse_content_item_ok j : exists c, parse_content_item j = Ok c.
Proof.
  unfold parse_content_item, try_except.
  destruct (parse_content_item_try j) as [c | e]; eauto.
Qed.

Lemma existsb_content_types_false t :
  existsb (json_eq_str t) content_types = false ->
  json_eq_str t "text" = false /\ json_eq_str t "tool_use" = false /\
  json_eq_str t "thinking" = false /\ json_eq_str t "tool_result" = false /\
  json_eq_str t "image" = false.
Proof.
  simpl. intros H. repeat rewrite orb_false_iff in H. tauto.
Qed.

(** C2: [parse_content_item] never raises; an object whose [type] is absent
    or not one of the five content types, and any input on which the body of
    the [try] raises, decode to a [TextContent] holding [str(item)]. *)
Theorem parse_content_item_total :
  (forall j, exists c, parse_content_item j = Ok c) /\
  (forall kvs,
     (forall t, lookup "type" kvs = Some t -> existsb (json_eq_str t) content_types = false) ->
     parse_content_item (JDict kvs) = Ok (TextContent (py_str (JDict kvs)))) /\
  (forall j e, parse_content_item_try j = Err e ->
     parse_content_item j = Ok (TextContent (py_str j))).
Proof.
  split; [exact parse_content_item_ok |]. split.
  - intros kvs Hty. unfold parse_content_item, parse_content_item_try, json_get.
    destruct (lookup "type" kvs) as [t |] eqn:Ht.
    + destruct (existsb_content_types_false t (Hty t eq_refl)) as (H1 & H2 & H3 & H4 & H5).
      simpl. now rewrite H1, H2, H3, H4, H5.
    + reflexivity.
  - intros j e He. unfold parse_content_item. now rewrite He.
Qed.

(** C5: a string content passes through verbatim; a list of N raw items
    yields N content items, the i-th being the decoding of the i-th. *)
Theorem parse_message_content_preserves_order :
  (forall s, parse_message_content (JStr s) = Ok (PStr s)) /\
  (forall l, exists cs,
     parse_message_content (JList l) = Ok (PList (map PContent cs)) /\
     length cs = length l /\
     Forall2 (fun x c => parse_content_item x = Ok c) l cs).
Proof.
  split; [reflexivity |]. intros l.
  destruct (mapM_total parse_content_item parse_content_item_ok l) as [cs Hcs].
  exists cs. simpl. rewrite Hcs. split; [reflexivity |].
  apply mapM_Forall2 in Hcs. split; [| exact Hcs].
  symmetry. exact (Forall2_length Hcs).
Qed.

(** ** The usage normalizer *)

(** C7: [None] is normalized to [None], a [UsageInfo] instance is returned
    unchanged, and normalizing a normalized result changes nothing. *)
Theorem normalize_usage_info_idempotent :
  normalize_usage_info PNone = Ok None /\
  (forall u, normalize_usage_info (PUsageInfo u) = Ok (Some u)) /\
  (forall x r, normalize_usage_info x = Ok r ->
     normalize_usage_info (usage_to_py r) = Ok r).
Proof.
  split; [reflexivity |]. split; [reflexivity |].
  intros x [u |] _; reflexivity.
Qed.

(** C10: a dict has no [input_tokens] or [output_tokens] attribute; a dict
    whose fields fail [UsageInfo] validation makes [normalize_usage_info]
    raise, and no dict is normalized to [None]. *)
Theorem normalize_usage_info_dict_not_total :
  (forall kvs a, hasattr (PDict kvs) a = false) /\
  normalize_usage_info (PDict [("input_tokens", PStr "abc")]) =
    Err (ValidationError "UsageInfo") /\
  (forall kvs, normalize_usage_info (PDict kvs) <> Ok None).
Proof.
  split; [reflexivity |]. split; [reflexivity |].
  intros kvs.
  change (normalize_usage_info (PDict kvs))
    with (u <- validate "UsageInfo" (v_UsageInfo (PDict kvs)) ;; ret (Some u)).
  destruct (v_UsageInfo (PDict kvs)); discriminate.
Qed.

(** C3, counterexample: an object with an [input_tokens] attribute and no
    [output_tokens] attribute is normalized to [None]. *)
Lemma normalize_usage_info_input_only_object :
  hasattr (PObject [("input_tokens", PInt 5)]) "input_tokens" = true /\
  hasattr (PObject [("input_tokens", PInt 5)]) "output_tokens" = false /\
  normalize_usage_info (PObject [("input_tokens", PInt 5)]) = Ok None.
Proof. repeat split. Qed.

(** C3, amended: the duck-typed branch needs both attributes; an input with
    [input_tokens] but without [output_tokens] is normalized to [None]. *)
Theorem normalize_usage_info_needs_both_attributes (v : pyval) :
  hasattr v "input_tokens" = true -> hasattr v "output_tokens" = false ->
  normalize_usage_info v = Ok None.
Proof.
  intros Hi Ho.
  destruct v; try (simpl in Hi; discriminate); try (simpl in Ho; discriminate);
    try reflexivity.
  unfold normalize_usage_info. rewrite Hi, Ho. reflexivity.
Qed.

Lemma normalize_usage_info_needs_both_attributes_witness :
  hasattr (PObject [("input_tokens", PInt 5); ("cache_read_input_tokens", PInt 1)])
    "input_tokens" = true /\
  normalize_usage_info (PObject [("input_tokens", PInt 5); ("cache_read_input_tokens", PInt 1)])
    = Ok None.
Proof.
  split; [reflexivity |].
  apply normalize_usage_info_needs_both_attributes; reflexivity.
Defined.

(** ** The assistant branch's compatibility check *)

Lemma assistant_compat_check_ok check data : assistant_compat_check check data = Ok tt.
Proof.
  unfold assistant_compat_check, try_except.
  destruct (dict_has "message" data); [| reflexivity].
  destruct (message_data <- json_getitem (JDict data) "message" ;; check message_data)
    as [[] |]; reflexivity.
Qed.

Lemma parse_transcript_entry_assistant data :
  lookup "type" data = Some (JStr "assistant") ->
  parse_transcript_entry data = parse_assistant_entry data.
Proof. intros H. unfold parse_transcript_entry. rewrite H. reflexivity. Qed.

(** C6: whatever the compatibility check does (succeed or raise), the
    [assistant] branch returns what it returns without the check; in
    particular [parse_transcript_entry] on an [assistant] record. *)
Theorem assistant_check_does_not_alter_result :
  (forall (check : json -> res unit) data,
     parse_assistant_entry_with check data = parse_assistant_entry_without_check data) /\
  (forall data, lookup "type" data = Some (JStr "assistant") ->
     parse_transcript_entry data = parse_assistant_entry_without_check data).
Proof.
  assert (Hw : forall (check : json -> res unit) data,
             parse_assistant_entry_with check data = parse_assistant_entry_without_check data).
  { intros check data. unfold parse_assistant_entry_with.
    rewrite assistant_compat_check_ok. reflexivity. }
  split; [exact Hw |].
  intros data H. rewrite parse_transcript_entry_assistant by exact H. apply Hw.
Qed.

(** ** Discriminator dispatch *)

Lemma safe_bind {A B} (P : B -> Prop) (m : res A) (k : A -> res B) :
  safe (fun _ => True) m -> (forall a, safe P (k a)) -> safe P (bind m k).
Proof. destruct m; simpl; auto. Qed.

Lemma safe_ret {A} (P : A -> Prop) a : P a -> safe P (ret a).
Proof. auto. Qed.

Lemma safe_try {A} (P : A -> Prop) m h :
  safe P m -> (forall e, safe P (h e)) -> safe P (try_except m h).
Proof. destruct m; simpl; auto. Qed.

Lemma safe_validate {A} (P : A -> Prop) model o :
  (forall a, o = Some a -> P a) -> safe P (validate model o).
Proof. destruct o; simpl; auto. Qed.

Ltac safe_auto :=
  repeat match goal with
  | |- True => exact I
  | |- safe _ (bind _ _) => apply safe_bind; [ | intros ?; cbv beta ]
  | |- safe _ (try_except _ _) => apply safe_try; [ | intros ? ]
  | |- safe _ (validate _ _) => apply safe_validate; intros ? ?
  | |- safe _ (ret _) => apply safe_ret
  | |- safe _ (Err _) => reflexivity
  | |- safe _ (if ?b then _ else _) => destruct b
  | |- safe _ (match ?x with _ => _ end) => destruct x
  | |- _ = _ => reflexivity
  end.

Lemma safe_normalize_usage_info v : safe (fun _ => True) (normalize_usage_info v).
Proof. unfold normalize_usage_info. destruct v; safe_auto. Qed.

Lemma parse_message_content_ok j : exists pc, parse_message_content j = Ok pc.
Proof.
  destruct j; try (eexists; reflexivity).
  destruct (mapM_total parse_content_item parse_content_item_ok l) as [cs Hcs].
  exists (PList (map PContent cs)). cbn [parse_message_content]. rewrite Hcs. reflexivity.
Qed.

Lemma user_parse_tool_use_result_other data dc :
  exists dc', user_parse_tool_use_result data dc = Ok dc' /\
    forall k, k <> "toolUseResult" -> lookup k dc' = lookup k dc.
Proof.
  unfold user_parse_tool_use_result.
  destruct (lookup "toolUseResult" data) as [[| | | | [| [] rest] |] |];
    try (eexists; split; [reflexivity | auto]).
  destruct (dict_has "type" kvs); [| eexists; split; [reflexivity | auto]].
  destruct (mapM_total parse_content_item parse_content_item_ok
              (filter json_is_dict (JDict kvs :: rest))) as [cs Hcs].
  rewrite Hcs. eexists; split; [reflexivity |].
  intros k Hk. apply lookup_dict_set_neq. congruence.
Qed.

(** With an object (or no) [message], the first step of the [user] branch
    raises nothing. *)
Lemma user_parse_message_ok data :
  message_is_object data = true -> exists dc, user_parse_message data = Ok dc.
Proof.
  unfold message_is_object, user_parse_message, dict_has. intros H.
  destruct (lookup "message" data) as [m |] eqn:Hm; [| eexists; reflexivity].
  destruct m; try discriminate. cbn [json_getitem]. rewrite Hm. cbn [bind ret json_in].
  destruct (dict_has "content" kvs) eqn:Hc; [| eexists; reflexivity].
  cbn [bind ret json_copy json_getitem]. unfold dict_has in Hc.
  destruct (lookup "content" kvs) as [c |]; [| discriminate].
  cbn [bind ret]. destruct (parse_message_content_ok c) as [pc ->]. eexists; reflexivity.
Qed.

Lemma parse_user_entry_safe data :
  message_is_object data = true ->
  safe (fun e => entry_kind e = "user") (parse_user_entry data).
Proof.
  intros H. unfold parse_user_entry.
  destruct (user_parse_message_ok data H) as [dc ->]. cbn [bind].
  destruct (user_parse_tool_use_result_other data dc) as [dc' [-> _]]. cbn [bind].
  destruct (v_UserTranscriptEntry (PDict dc')); reflexivity.
Qed.

Lemma parse_assistant_entry_safe data :
  message_is_object data = true ->
  safe (fun e => entry_kind e = "assistant") (parse_assistant_entry data).
Proof.
  intros H. unfold parse_assistant_entry, parse_assistant_entry_with.
  rewrite assistant_compat_check_ok. cbn [bind].
  unfold message_is_object in H. unfold assistant_standard_path, dict_has.
  destruct (lookup "message" data) as [m |] eqn:Hm; cbn [bind ret]; [| safe_auto].
  destruct m; try discriminate. cbn [json_getitem]. rewrite Hm. cbn [bind ret json_in].
  destruct (dict_has "content" kvs) eqn:Hc; cbn [bind ret]; [| safe_auto].
  cbn [json_copy json_getitem bind ret]. unfold dict_has in Hc.
  destruct (lookup "content" kvs) as [c |]; [| discriminate]. cbn [bind ret].
  destruct (parse_message_content_ok c) as [pc ->]. cbn [bind].
  rewrite lookup_dict_set_neq, lookup_pkvs by discriminate.
  destruct (lookup "usage" kvs) as [u |] eqn:Hu; cbn [option_map]; [| safe_auto].
  cbn [bind ret].
  pose proof (safe_normalize_usage_info (of_json u)) as Hn.
  destruct (normalize_usage_info (of_json u)); cbn [bind ret]; [safe_auto | exact Hn].
Qed.

Lemma parse_queue_operation_entry_safe data :
  safe (fun e => entry_kind e = "queue-operation") (parse_queue_operation_entry data).
Proof.
  unfold parse_queue_operation_entry.
  destruct (lookup "content" data) as [[| | | | l |] |]; cbn [bind ret];
    try (destruct (parse_message_content_ok (JList l)) as [pc ->]; cbn [bind ret]);
    safe_auto.
Qed.

Lemma json_eq_str_true j s : json_eq_str j s = true -> j = JStr s.
Proof. destruct j; simpl; try discriminate. intros H. apply String.eqb_eq in H. now subst. Qed.

Lemma parse_transcript_entry_user data :
  lookup "type" data = Some (JStr "user") ->
  parse_transcript_entry data = parse_user_entry data.
Proof. intros H. unfold parse_transcript_entry. rewrite H. reflexivity. Qed.

Lemma parse_transcript_entry_summary data :
  lookup "type" data = Some (JStr "summary") ->
  parse_transcript_entry data =
    (s <- validate "SummaryTranscriptEntry" (v_SummaryTranscriptEntry (PDict (pkvs data))) ;;
     ret (ESummary s)).
Proof. intros H. unfold parse_transcript_entry. rewrite H. reflexivity. Qed.

Lemma parse_transcript_entry_system data :
  lookup "type" data = Some (JStr "system") ->
  parse_transcript_entry data =
    (s <- validate "SystemTranscriptEntry" (v_SystemTranscriptEntry (PDict (pkvs data))) ;;
     ret (ESystem s)).
Proof. intros H. unfold parse_transcript_entry. rewrite H. reflexivity. Qed.

Lemma parse_transcript_entry_queue data :
  lookup "type" data = Some (JStr "queue-operation") ->
  parse_transcript_entry data = parse_queue_operation_entry data.
Proof. intros H. unfold parse_transcript_entry. rewrite H. reflexivity. Qed.

(** C1, counterexample: a record tagged ["summary"] without its required
    fields is neither decoded nor rejected as an unknown type: it raises a
    validation error. *)
Lemma known_tag_can_raise_validation_error :
  parse_transcript_entry [("type", JStr "summary")] =
    Err (ValidationError "SummaryTranscriptEntry") /\
  is_unknown_type_error (ValidationError "SummaryTranscriptEntry") = false.
Proof. split; reflexivity. Qed.

(** C1, amended: a record whose [type] is one of the five tags decodes to
    the variant of that tag or raises a validation error, provided that,
    for the [user] and [assistant] tags, its [message] is absent or an
    object (other messages are left out); any other [type], or none, raises
    [ValueError("Unknown transcript entry type: " + str(type))]. *)
Theorem parse_transcript_entry_dispatch (data : list (string * json)) :
  let entry_type := match lookup "type" data with Some t => t | None => JNull end in
  (forall tag, In tag entry_types -> json_eq_str entry_type tag = true ->
     (tag = "user" \/ tag = "assistant" -> message_is_object data = true) ->
     match parse_transcript_entry data with
     | Ok e => entry_kind e = tag
     | Err x => is_validation_error x = true
     end) /\
  (existsb (json_eq_str entry_type) entry_types = false ->
     parse_transcript_entry data = Err (ValueError (unknown_type_message entry_type))).
Proof.
  intros entry_type. split.
  - intros tag Hin Heq Hmsg. apply json_eq_str_true in Heq.
    assert (Ht : lookup "type" data = Some (JStr tag)).
    { subst entry_type. destruct (lookup "type" data); congruence. }
    simpl in Hin. destruct Hin as [<- | [<- | [<- | [<- | [<- | []]]]]].
    + rewrite parse_transcript_entry_user by exact Ht.
      exact (parse_user_entry_safe data (Hmsg (or_introl eq_refl))).
    + rewrite parse_transcript_entry_assistant by exact Ht.
      exact (parse_assistant_entry_safe data (Hmsg (or_intror eq_refl))).
    + rewrite parse_transcript_entry_summary by exact Ht.
      destruct (v_SummaryTranscriptEntry (PDict (pkvs data))); reflexivity.
    + rewrite parse_transcript_entry_system by exact Ht.
      destruct (v_SystemTranscriptEntry (PDict (pkvs data))); reflexivity.
    + rewrite parse_transcript_entry_queue by exact Ht.
      exact (parse_queue_operation_entry_safe data).
  - intros H. simpl in H. repeat rewrite orb_false_iff in H.
    destruct H as (H1 & H2 & H3 & H4 & H5 & _).
    unfold parse_transcript_entry. fold entry_type.
    rewrite H1, H2, H3, H4, H5. reflexivity.
Qed.

Lemma parse_transcript_entry_dispatch_witness :
  match parse_transcript_entry
          (assistant_record_with_message (assistant_message_fields (JStr "hello") JNull)) with
  | Ok e => entry_kind e = "assistant"
  | Err x => is_validation_error x = true
  end.
Proof.
  apply (proj1 (parse_transcript_entry_dispatch
                  (assistant_record_with_message (assistant_message_fields (JStr "hello") JNull)))
           "assistant").
  - simpl; tauto.
  - reflexivity.
  - intros _; reflexivity.
Defined.

(** ** MCP-style tool results of [user] records *)

Lemma traverse_content_items cs :
  traverse_opt v_ContentItem (map PContent cs) = Some cs.
Proof. induction cs as [| c cs IH]; simpl; [reflexivity | now rewrite IH]. Qed.

Lemma v_ToolUseResult_content c cs :
  v_ToolUseResult (PList (map PContent (c :: cs))) = Some (TURContent (c :: cs)).
Proof.
  unfold v_ToolUseResult. simpl.
  change (PContent c :: map PContent cs) with (map PContent (c :: cs)).
  rewrite traverse_content_items. reflexivity.
Qed.

Lemma v_UserTranscriptEntry_tool_use_result kvs u :
  v_UserTranscriptEntry (PDict kvs) = Some u ->
  opt_field v_ToolUseResult "toolUseResult" kvs = Some (ue_toolUseResult u).
Proof.
  unfold v_UserTranscriptEntry, from_dict, option_bind. intros H.
  repeat match type of H with
         | context [match ?x with _ => _ end] => destruct x eqn:?; try discriminate
         end.
  inversion H; subst. reflexivity.
Qed.

(** C4, amended: when the [toolUseResult] of a [user] record is a list whose
    first element is an object with a [type] key, a decoded record holds as
    [toolUseResult] the content items decoded from the list's objects, in
    order; elements that are not objects are left out. *)
Theorem user_mcp_tool_use_result (data : list (string * json))
    (first : list (string * json)) (rest : list json) (u : UserTranscriptEntry) :
  lookup "type" data = Some (JStr "user") ->
  lookup "toolUseResult" data = Some (JList (JDict first :: rest)) ->
  dict_has "type" first = true ->
  parse_transcript_entry data = Ok (EUser u) ->
  exists cs, ue_toolUseResult u = Some (TURContent cs) /\
    Forall2 (fun x c => parse_content_item x = Ok c)
      (filter json_is_dict (JDict first :: rest)) cs.
Proof.
  intros Hty Htur Hfirst H.
  rewrite parse_transcript_entry_user in H by exact Hty.
  unfold parse_user_entry in H.
  destruct (user_parse_message data) as [dc | e]; cbn [bind] in H; [| discriminate].
  unfold user_parse_tool_use_result in H. rewrite Htur, Hfirst in H.
  destruct (mapM_total parse_content_item parse_content_item_ok
              (filter json_is_dict (JDict first :: rest))) as [cs Hcs].
  rewrite Hcs in H. cbn [bind ret] in H.
  destruct (v_UserTranscriptEntry (PDict (dict_set "toolUseResult" (PList (map PContent cs)) dc)))
    as [u' |] eqn:Ev; cbn [validate bind ret] in H; [| discriminate].
  inversion H; subst u'.
  apply v_UserTranscriptEntry_tool_use_result in Ev.
  apply mapM_Forall2 in Hcs.
  exists cs. split; [| exact Hcs].
  unfold opt_field, dflt in Ev. rewrite lookup_dict_set_eq in Ev.
  simpl in Hcs. inversion Hcs as [| x c xs cs' Hxc Hrest E1 E2]; subst.
  unfold v_opt in Ev. rewrite v_ToolUseResult_content in Ev. simpl in Ev. congruence.
Qed.

Lemma user_mcp_tool_use_result_witness :
  parse_transcript_entry (mcp_user_record [ok_text_item]) = Ok (EUser mcp_user_entry) /\
  exists cs, ue_toolUseResult mcp_user_entry = Some (TURContent cs) /\
    Forall2 (fun x c => parse_content_item x = Ok c)
      (filter json_is_dict [ok_text_item]) cs.
Proof.
  split; [vm_compute; reflexivity |].
  apply (user_mcp_tool_use_result (mcp_user_record [ok_text_item])
           [("type", JStr "text"); ("text", JStr "ok")] []);
    vm_compute; reflexivity.
Defined.

(** C4, counterexample: with [toolUseResult = [{"type": "text", "text":
    "ok"}, 5]] the decoded tool result has one item: the integer is not
    decoded. *)
Lemma mcp_tool_use_result_not_whole_sequence :
  parse_transcript_entry (mcp_user_record [ok_text_item; JInt 5]) = Ok (EUser mcp_user_entry) /\
  ue_toolUseResult mcp_user_entry = Some (TURContent [TextBlock None "ok"]).
Proof. split; vm_compute; reflexivity. Qed.

(** C9: some MCP-style tool result of N elements, one not an object,
    decodes to fewer than N content items. *)
Theorem mcp_tool_use_result_drops_non_objects :
  exists data first rest u cs,
    lookup "type" data = Some (JStr "user") /\
    lookup "toolUseResult" data = Some (JList (JDict first :: rest)) /\
    dict_has "type" first = true /\
    parse_transcript_entry data = Ok (EUser u) /\
    ue_toolUseResult u = Some (TURContent cs) /\
    length cs < length (JDict first :: rest).
Proof.
  exists (mcp_user_record [ok_text_item; JInt 5]),
         [("type", JStr "text"); ("text", JStr "ok")], [JInt 5],
         mcp_user_entry, [TextBlock None "ok"].
  repeat split; vm_compute; reflexivity.
Qed.

(** ** Encoding and decoding again *)

(** C8, counterexample: an item of unknown type decodes to a local
    [TextContent]; its encoding is a text object, which decodes to the
    provider's [TextBlock], so the re-decoded record differs. *)
Lemma roundtrip_changes_local_text_item :
  exists e1 e2,
    parse_transcript_entry unknown_item_user_record = Ok e1 /\
    parse_transcript_entry (dump_entry e1) = Ok e2 /\
    e1 <> e2.
Proof.
  eexists. eexists. split; [vm_compute; reflexivity |].
  split; [vm_compute; reflexivity |].
  vm_compute. discriminate.
Qed.

(** ** [to_anthropic_usage] and [normalize_usage_info] on other inputs *)


(** Usage data that is JSON but neither an object nor null (a number, a
    string, a bool, a list) is normalized to [None], without raising. *)
Theorem normalize_usage_info_json_not_dict (j : json) :
  json_is_dict j = false -> j <> JNull -> normalize_usage_info (of_json j) = Ok None.
Proof. destruct j; intros H1 H2; try reflexivity; simpl in *; congruence. Qed.

(** An object (not a dict, not a usage model) with integer [input_tokens]
    and [output_tokens] attributes and none of the other usage attributes is
    normalized to a [UsageInfo] with those two counts and the rest [None];
    its other attributes are ignored. *)
Theorem normalize_usage_info_object_fallback (attrs : list (string * pyval)) (i o : Z) :
  lookup "input_tokens" attrs = Some (PInt i) ->
  lookup "output_tokens" attrs = Some (PInt o) ->
  Forall (fun a => lookup a attrs = None)
    ["cache_creation_input_tokens"; "cache_read_input_tokens"; "service_tier";
     "server_tool_use"] ->
  normalize_usage_info (PObject attrs) =
    Ok (Some (mkUsageInfo (Some i) None None (Some o) None None)).
Proof.
  intros Hi Ho Hrest.
  inversion Hrest as [| ? ? Hcc R1]; inversion R1 as [| ? ? Hcr R2];
    inversion R2 as [| ? ? Hst R3]; inversion R3 as [| ? ? Hstu _].
  unfold normalize_usage_info, hasattr, dict_has, getattr_none.
  rewrite Hi, Ho, Hcc, Hcr, Hst, Hstu. reflexivity.
Qed.

(** A [UsageInfo] with both token counts whose service tier is not one of
    the SDK's literals makes [to_anthropic_usage] raise a validation error:
    the loader accepts any string there. *)
Theorem to_anthropic_usage_invalid_tier (u : UsageInfo) (i o : Z) :
  ui_input_tokens u = Some i -> ui_output_tokens u = Some o ->
  valid_service_tier (ui_service_tier u) = false ->
  to_anthropic_usage u = Err (ValidationError "Usage").
Proof.
  destruct u as [i' cc cr o' st stu]; cbn [ui_input_tokens ui_output_tokens ui_service_tier].
  intros -> -> H. destruct st as [s |]; [| discriminate].
  unfold to_anthropic_usage. cbn [ui_input_tokens ui_output_tokens ui_service_tier].
  cbn [v_AnthropicUsage]. unfold opt_field, dflt, req. cbn [lookup String.eqb Ascii.eqb Bool.eqb andb].
  cbn [opt_str_py v_opt v_literal]. cbn [valid_service_tier] in H. rewrite H.
  cbn [v_int option_bind ui_cache_creation_input_tokens ui_cache_read_input_tokens
       ui_server_tool_use].
  destruct (v_opt v_int (opt_int_py cc)); [| reflexivity]. cbn [option_bind].
  destruct (v_opt v_int (opt_int_py cr)); [| reflexivity]. cbn [option_bind].
  destruct (v_opt v_ServerToolUsage (opt_dict_py stu)); reflexivity.
Qed.

Lemma to_anthropic_usage_invalid_tier_witness :
  to_anthropic_usage (mkUsageInfo (Some 10%Z) None None (Some 20%Z) (Some "flex") None) =
    Err (ValidationError "Usage").
Proof. apply (to_anthropic_usage_invalid_tier _ 10%Z 20%Z); reflexivity. Defined.


Lemma normalize_usage_info_json_not_dict_witness :
  normalize_usage_info (of_json (JStr "n/a")) = Ok None.
Proof. apply normalize_usage_info_json_not_dict; [reflexivity | discriminate]. Defined.

Lemma normalize_usage_info_object_fallback_witness :
  normalize_usage_info (PObject [("input_tokens", PInt 4%Z); ("output_tokens", PInt 9%Z);
                                 ("model", PStr "m")]) =
    Ok (Some (mkUsageInfo (Some 4%Z) None None (Some 9%Z) None None)).
Proof.
  apply normalize_usage_info_object_fallback; try reflexivity.
  repeat constructor.
Defined.

(** ** [AssistantMessage.from_anthropic_message] *)

(** [from_anthropic_message] keeps the id, model, content (in order), stop
    reason and stop sequence and converts the usage with
    [from_anthropic_usage]; it raises only when the stop reason is not one
    the local model accepts. *)
Theorem from_anthropic_message_result (m : AnthropicMessage) :
  from_anthropic_message m =
    if valid_stop_reason (amsg_stop_reason m) then
      Ok (mkAssistantMessage (amsg_id m) (amsg_model m) (amsg_content m) (amsg_stop_reason m)
            (amsg_stop_sequence m) (Some (from_anthropic_usage (amsg_usage m))))
    else Err (ValidationError "AssistantMessage").
Proof.
  destruct m as [i md c sr ss u]. unfold from_anthropic_message.
  cbn [amsg_id amsg_model amsg_content amsg_stop_reason amsg_stop_sequence amsg_usage
       normalize_usage_info bind ret usage_to_py].
  cbn [v_AssistantMessage from_dict]. unfold req, opt_field, dflt.
  cbn [lookup String.eqb Ascii.eqb Bool.eqb andb v_str v_literal existsb option_bind].
  unfold v_list. rewrite traverse_content_items. cbn [option_bind].
  destruct sr as [s |]; cbn [valid_stop_reason opt_str_py v_opt option_map v_literal].
  - destruct (existsb (String.eqb s) stop_reasons); cbn [option_map option_bind];
      [| reflexivity].
    destruct ss; reflexivity.
  - destruct ss; reflexivity.
Qed.


(** ** How [parse_content_item] chooses a shape *)

Lemma to_json_of_json : forall j, to_json (of_json j) = Some j.
Proof.
  fix IH 1. intros [| b | z | s | l | kvs]; try reflexivity.
  - cbn [of_json to_json].
    assert (H : traverse_opt to_json (map of_json l) = Some l).
    { induction l as [| x l IHl]; [reflexivity |].
      cbn [map traverse_opt]. rewrite IH. cbn [option_bind]. rewrite IHl. reflexivity. }
    rewrite H. reflexivity.
  - cbn [of_json to_json].
    assert (H : traverse_opt (fun kv => let? j := to_json (snd kv) in Some (fst kv, j))
                  (map (fun kv => (fst kv, of_json (snd kv))) kvs) = Some kvs).
    { induction kvs as [| [k v] kvs IHk]; [reflexivity |].
      cbn [map traverse_opt fst snd]. rewrite IH. cbn [option_bind]. rewrite IHk. reflexivity. }
    rewrite H. reflexivity.
Qed.

Lemma v_dict_any_pkvs d : v_dict_any (PDict (pkvs d)) = Some d.
Proof.
  pose proof (to_json_of_json (JDict d)) as H. cbn [of_json to_json] in H.
  unfold v_dict_any, pkvs.
  destruct (traverse_opt _ _); cbn [option_bind] in H; congruence.
Qed.

Lemma traverse_citations l :
  forallb json_is_dict l = true -> traverse_opt v_citation (map of_json l) = Some l.
Proof.
  induction l as [| x l IH]; [reflexivity |].
  cbn [forallb]. intros H. apply andb_true_iff in H. destruct H as [Hx Hl].
  destruct x; try discriminate. cbn [map traverse_opt].
  change (v_citation (of_json (JDict kvs))) with (to_json (of_json (JDict kvs))).
  rewrite to_json_of_json. cbn [option_bind]. rewrite IH by exact Hl. reflexivity.
Qed.

Lemma traverse_dicts l : traverse_opt v_dict_any (map of_json (map JDict l)) = Some l.
Proof.
  induction l as [| d l IH]; [reflexivity |].
  cbn [map traverse_opt]. change (of_json (JDict d)) with (PDict (pkvs d)).
  rewrite v_dict_any_pkvs. cbn [option_bind]. rewrite IH. reflexivity.
Qed.

Lemma dump_ContentItem_decodes (c : ContentItem) :
  citations_are_objects c = true ->
  parse_content_item (dump_ContentItem c) = Ok (redecoded_item c).
Proof.
  intros Hc. destruct c as [t | i n inp | i body e | t [sg |] | [m d] | [l |] t | i inp n | sg t].
  - reflexivity.
  - unfold parse_content_item, parse_content_item_try. cbn.
    pose proof (v_dict_any_pkvs inp) as H. unfold v_dict_any, pkvs in H.
    rewrite H. reflexivity.
  - destruct body as [s | l], e as [b |]; try reflexivity;
      unfold parse_content_item, parse_content_item_try; cbn;
      rewrite traverse_dicts; reflexivity.
  - reflexivity.
  - reflexivity.
  - reflexivity.
  - simpl in Hc. unfold parse_content_item, parse_content_item_try. cbn.
    rewrite traverse_citations by exact Hc. reflexivity.
  - reflexivity.
  - unfold parse_content_item, parse_content_item_try. cbn.
    unfold v_any. rewrite to_json_of_json. reflexivity.
  - reflexivity.
Qed.

(** Encoding an item and decoding it again gives the item back, except
    that the local text and tool-use shapes, and a local thinking item with
    a signature, come back as the provider's blocks (text-block citations
    being objects). *)
Theorem parse_content_item_dump (c : ContentItem) :
  citations_are_objects c = true ->
  parse_content_item (dump_ContentItem c) = Ok (redecoded_item c).
Proof. exact (dump_ContentItem_decodes c). Qed.

Lemma parse_content_item_dump_witness :
  parse_content_item (dump_ContentItem (ToolUseContent "t1" "Bash" [("command", JStr "ls")])) =
    Ok (redecoded_item (ToolUseContent "t1" "Bash" [("command", JStr "ls")])).
Proof. apply parse_content_item_dump. reflexivity. Defined.

Lemma v_dict_any_v_any v d : v_dict_any v = Some d -> v_any v = Some (JDict d).
Proof.
  destruct v; try discriminate. unfold v_dict_any, v_any. cbn [to_json].
  intros H. rewrite H. reflexivity.
Qed.

Lemma v_ToolUseContent_block v c :
  v_ToolUseContent v = Some c -> exists c', v_ToolUseBlock v = Some c'.
Proof.
  intros H. destruct v; try discriminate.
  cbn [v_ToolUseContent v_ToolUseBlock from_dict] in *. unfold req, option_bind in *.
  repeat match type of H with
         | context [match ?x with _ => _ end] =>
             let E := fresh "E" in destruct x eqn:E; try discriminate
         end.
  match goal with E : match lookup "input" kvs with _ => _ end = Some _ |- _ =>
    destruct (lookup "input" kvs); [| discriminate];
    rewrite (v_dict_any_v_any _ _ E) end.
  eexists; reflexivity.
Qed.

(** The [tool_use] branch: the local fallback never succeeds where the
    provider's block fails. *)
Lemma tool_use_branch v :
  try_except (validate "ToolUseBlock" (v_ToolUseBlock v))
             (fun _ => validate "ToolUseContent" (v_ToolUseContent v)) =
  match v_ToolUseBlock v with
  | Some c => Ok c
  | None => Err (ValidationError "ToolUseContent")
  end.
Proof.
  destruct (v_ToolUseBlock v) eqn:Eb; [reflexivity |]. cbn.
  destruct (v_ToolUseContent v) eqn:Ec; [| reflexivity].
  destruct (v_ToolUseContent_block _ _ Ec) as [c' Hc']. congruence.
Qed.

Lemma parse_content_item_cases (P : ContentItem -> Prop) j c :
  (forall s, P (TextContent s)) ->
  (forall v c, v_TextBlock v = Some c -> P c) ->
  (forall v c, v_TextContent v = Some c -> P c) ->
  (forall v c, v_ToolUseBlock v = Some c -> P c) ->
  (forall v c, v_ThinkingBlock v = Some c -> P c) ->
  (forall v c, v_ThinkingContent v = Some c -> P c) ->
  (forall v c, v_ToolResultContent v = Some c -> P c) ->
  (forall v c, v_ImageContent v = Some c -> P c) ->
  parse_content_item j = Ok c -> P c.
Proof.
  intros Hs H1 H2 H3 H4 H5 H6 H7.
  unfold parse_content_item, parse_content_item_try.
  destruct (json_get j "type" (JStr "")) as [t | e]; cbn [bind try_except];
    [| intros H; inversion H; subst; apply Hs].
  destruct (json_eq_str t "text").
  { destruct (v_TextBlock (of_json j)) eqn:E; cbn.
    - intros H; inversion H; subst; eauto.
    - destruct (v_TextContent (of_json j)) eqn:E'; cbn; intros H; inversion H; subst; eauto. }
  destruct (json_eq_str t "tool_use").
  { rewrite tool_use_branch. destruct (v_ToolUseBlock (of_json j)) eqn:E; cbn;
      intros H; inversion H; subst; eauto. }
  destruct (json_eq_str t "thinking").
  { destruct (v_ThinkingBlock (of_json j)) eqn:E; cbn.
    - intros H; inversion H; subst; eauto.
    - destruct (v_ThinkingContent (of_json j)) eqn:E'; cbn; intros H; inversion H; subst; eauto. }
  destruct (json_eq_str t "tool_result").
  { destruct (v_ToolResultContent (of_json j)) eqn:E; cbn; intros H; inversion H; subst; eauto. }
  destruct (json_eq_str t "image").
  { destruct (v_ImageContent (of_json j)) eqn:E; cbn; intros H; inversion H; subst; eauto. }
  cbn. intros H; inversion H; subst; apply Hs.
Qed.

Ltac validator_shape :=
  let v := fresh "v" in let c := fresh "c" in let Hv := fresh "Hv" in
  intros v c Hv; destruct v; try discriminate;
  cbn [v_TextBlock v_TextContent v_ToolUseBlock v_ThinkingBlock v_ThinkingContent
       v_ToolResultContent v_ImageContent from_dict] in Hv;
  unfold option_bind in Hv;
  repeat match type of Hv with
         | context [match ?x with _ => _ end] => destruct x; try discriminate
         end;
  inversion Hv; subst; reflexivity.


Lemma traverse_citation_objects xs l :
  traverse_opt v_citation xs = Some l -> forallb json_is_dict l = true.
Proof.
  revert l; induction xs as [| x xs IH]; intros l H; cbn [traverse_opt] in H.
  - inversion H; reflexivity.
  - unfold option_bind in H.
    destruct (v_citation x) as [j |] eqn:Ej; [| discriminate].
    destruct (traverse_opt v_citation xs) as [l' |] eqn:El; [| discriminate].
    inversion H; subst. cbn [forallb]. rewrite (IH l' eq_refl), andb_true_r.
    destruct x; try discriminate. unfold v_citation in Ej. cbn [to_json] in Ej.
    unfold option_bind in Ej. destruct (traverse_opt _ kvs); [| discriminate].
    inversion Ej; reflexivity.
Qed.

Lemma v_TextBlock_citations v c : v_TextBlock v = Some c -> citations_are_objects c = true.
Proof.
  intros H. destruct v; try discriminate. cbn [v_TextBlock from_dict] in H.
  unfold option_bind in H.
  destruct (opt_field (v_list v_citation) "citations" kvs) as [[l |] |] eqn:Ec;
    [| | discriminate].
  - destruct (req v_str "text" kvs); [| discriminate].
    destruct (req (v_literal ["text"]) "type" kvs); [| discriminate].
    inversion H; subst. cbn [citations_are_objects].
    unfold opt_field, dflt in Ec. destruct (lookup "citations" kvs) as [p |]; [| discriminate].
    destruct p; try discriminate. cbn [v_opt v_list option_map] in Ec.
    destruct (traverse_opt v_citation l0) eqn:Et; [| discriminate].
    inversion Ec; subst. exact (traverse_citation_objects _ _ Et).
  - destruct (req v_str "text" kvs); [| discriminate].
    destruct (req (v_literal ["text"]) "type" kvs); [| discriminate].
    inversion H; reflexivity.
Qed.

(** For a decoded item, encoding and decoding gives [redecoded_item] of it,
    and a second encode and decode changes nothing more. *)
Theorem parse_content_item_redecode (j : json) (c : ContentItem) :
  parse_content_item j = Ok c ->
  parse_content_item (dump_ContentItem c) = Ok (redecoded_item c) /\
  parse_content_item (dump_ContentItem (redecoded_item c)) = Ok (redecoded_item c).
Proof.
  intros H.
  assert (Hc : citations_are_objects c = true).
  { apply (parse_content_item_cases (fun c => citations_are_objects c = true) j);
      [reflexivity | exact v_TextBlock_citations | validator_shape .. | exact H]. }
  split; [exact (dump_ContentItem_decodes c Hc) |].
  assert (Hr : redecoded_item (redecoded_item c) = redecoded_item c /\
               citations_are_objects (redecoded_item c) = true).
  { destruct c as [| | | t [|] | | | |]; split; try reflexivity; exact Hc. }
  destruct Hr as [Hr Hrc]. rewrite <- Hr at 2. exact (dump_ContentItem_decodes _ Hrc).
Qed.

Lemma parse_content_item_redecode_witness :
  parse_content_item (JDict [("type", JStr "text"); ("text", JStr "hi")]) =
    Ok (TextBlock None "hi") /\
  parse_content_item (dump_ContentItem (TextBlock None "hi")) =
    Ok (redecoded_item (TextBlock None "hi")) /\
  parse_content_item (dump_ContentItem (redecoded_item (TextBlock None "hi"))) =
    Ok (redecoded_item (TextBlock None "hi")).
Proof.
  split; [reflexivity |].
  apply (parse_content_item_redecode (JDict [("type", JStr "text"); ("text", JStr "hi")])).
  reflexivity.
Defined.

(** A raw item that is not an object (a string, number, list, ...) decodes
    to a [TextContent] holding [str(item)]; a string is kept verbatim. *)
Theorem parse_content_item_non_object (j : json) :
  json_is_dict j = false -> parse_content_item j = Ok (TextContent (py_str j)).
Proof. destruct j; intros H; try reflexivity; discriminate. Qed.

Lemma parse_content_item_non_object_witness :
  parse_content_item (JList [JInt 1; JStr "a"]) =
    Ok (TextContent (py_str (JList [JInt 1; JStr "a"]))).
Proof. apply parse_content_item_non_object. reflexivity. Defined.

Lemma v_TextBlock_no_text kvs : req v_str "text" kvs = None -> v_TextBlock (PDict kvs) = None.
Proof.
  intros H. cbn [v_TextBlock from_dict].
  destruct (opt_field _ "citations" kvs); cbn [option_bind]; [rewrite H |]; reflexivity.
Qed.

Lemma v_TextContent_no_text kvs : req v_str "text" kvs = None -> v_TextContent (PDict kvs) = None.
Proof.
  intros H. cbn [v_TextContent from_dict].
  destruct (req (v_literal ["text"]) "type" kvs); cbn [option_bind]; [rewrite H |]; reflexivity.
Qed.

(** A [text] item whose [text] is missing or not a string decodes to a
    [TextContent] holding [str(item)]. *)
Theorem parse_content_item_text_not_string (kvs : list (string * json)) :
  lookup "type" kvs = Some (JStr "text") ->
  (forall s, lookup "text" kvs <> Some (JStr s)) ->
  parse_content_item (JDict kvs) = Ok (TextContent (py_str (JDict kvs))).
Proof.
  intros Hty Hn.
  assert (Ht : req v_str "text" (pkvs kvs) = None).
  { unfold req. rewrite lookup_pkvs. destruct (lookup "text" kvs) as [t |]; [| reflexivity].
    destruct t; try reflexivity. exfalso; eapply Hn; reflexivity. }
  unfold parse_content_item, parse_content_item_try, json_get. rewrite Hty.
  change (of_json (JDict kvs)) with (PDict (pkvs kvs)).
  rewrite v_TextBlock_no_text, v_TextContent_no_text by exact Ht.
  reflexivity.
Qed.

Lemma parse_content_item_text_not_string_witness :
  parse_content_item (JDict [("type", JStr "text"); ("text", JInt 7)]) =
    Ok (TextContent (py_str (JDict [("type", JStr "text"); ("text", JInt 7)]))).
Proof.
  apply parse_content_item_text_not_string; [reflexivity |].
  intros s; discriminate.
Defined.

Lemma traverse_citation_non_object l :
  existsb (fun x => negb (json_is_dict x)) l = true ->
  traverse_opt v_citation (map of_json l) = None.
Proof.
  induction l as [| x l IH]; [discriminate |].
  cbn [existsb map traverse_opt]. intros H. apply orb_true_iff in H.
  destruct x; cbn [json_is_dict negb] in H;
    try (cbn [of_json v_citation option_bind]; reflexivity).
  destruct H as [H | H]; [discriminate |].
  unfold option_bind at 1. destruct (v_citation _); [| reflexivity].
  cbn [option_bind]. rewrite IH by exact H. reflexivity.
Qed.

(** A [text] item with a string [text] whose [citations] is neither null
    nor a list of objects falls back to the local [TextContent] with that
    text. *)
Theorem parse_content_item_text_bad_citations (kvs : list (string * json)) (s : string)
    (cit : json) :
  lookup "type" kvs = Some (JStr "text") ->
  lookup "text" kvs = Some (JStr s) ->
  lookup "citations" kvs = Some cit ->
  cit <> JNull ->
  (forall l, cit = JList l -> existsb (fun x => negb (json_is_dict x)) l = true) ->
  parse_content_item (JDict kvs) = Ok (TextContent s).
Proof.
  intros Hty Htx Hc Hnn Hl.
  assert (Hb : v_TextBlock (PDict (pkvs kvs)) = None).
  { cbn [v_TextBlock from_dict]. unfold opt_field, dflt.
    rewrite lookup_pkvs, Hc. cbn [option_map].
    destruct cit; try (cbn; reflexivity); [congruence |].
    cbn [of_json v_opt v_list]. rewrite traverse_citation_non_object by (apply Hl; reflexivity).
    reflexivity. }
  unfold parse_content_item, parse_content_item_try, json_get. rewrite Hty.
  change (of_json (JDict kvs)) with (PDict (pkvs kvs)). rewrite Hb.
  cbn [json_eq_str String.eqb Ascii.eqb Bool.eqb andb bind try_except validate ret].
  cbn [v_TextContent from_dict]. unfold req. rewrite !lookup_pkvs, Hty, Htx. reflexivity.
Qed.

Lemma parse_content_item_text_bad_citations_witness :
  parse_content_item (JDict [("type", JStr "text"); ("text", JStr "hi");
                             ("citations", JList [JStr "c"])]) = Ok (TextContent "hi").
Proof.
  apply (parse_content_item_text_bad_citations _ "hi" (JList [JStr "c"]));
    try reflexivity; [discriminate |].
  intros l H. inversion H; reflexivity.
Defined.

(** A [thinking] item with a string [thinking] and no signature (absent or
    null) decodes to the local [ThinkingContent] with no signature. *)
Theorem parse_content_item_thinking_without_signature (kvs : list (string * json)) (t : string) :
  lookup "type" kvs = Some (JStr "thinking") ->
  lookup "thinking" kvs = Some (JStr t) ->
  lookup "signature" kvs = None \/ lookup "signature" kvs = Some JNull ->
  parse_content_item (JDict kvs) = Ok (ThinkingContent t None).
Proof.
  intros Hty Hth Hsg.
  assert (Hb : v_ThinkingBlock (PDict (pkvs kvs)) = None).
  { cbn [v_ThinkingBlock from_dict]. unfold req. rewrite lookup_pkvs.
    destruct Hsg as [-> | ->]; reflexivity. }
  unfold parse_content_item, parse_content_item_try, json_get. rewrite Hty.
  change (of_json (JDict kvs)) with (PDict (pkvs kvs)). rewrite Hb.
  cbn [json_eq_str String.eqb Ascii.eqb Bool.eqb andb bind try_except validate ret].
  cbn [v_ThinkingContent from_dict]. unfold opt_field, dflt, req.
  rewrite !lookup_pkvs, Hty, Hth.
  destruct Hsg as [-> | ->]; reflexivity.
Qed.

Lemma parse_content_item_thinking_without_signature_witness :
  parse_content_item (JDict [("type", JStr "thinking"); ("thinking", JStr "hmm")]) =
    Ok (ThinkingContent "hmm" None).
Proof. apply parse_content_item_thinking_without_signature; auto. Defined.

(** ** The preprocessing of [parse_transcript_entry] *)

Ltac extract_field H :=
  unfold from_dict, option_bind in H;
  repeat match type of H with
         | context [match ?x with _ => _ end] => destruct x eqn:?; try discriminate
         end;
  inversion H; subst;
  cbn [am_content am_usage ue_message um_content ae_message qe_content];
  first [reflexivity | assumption | (split; reflexivity) | (split; assumption)].

Lemma v_UserTranscriptEntry_message kvs u :
  v_UserTranscriptEntry (PDict kvs) = Some u ->
  req v_UserMessage "message" kvs = Some (ue_message u).
Proof. intros H. unfold v_UserTranscriptEntry in H. extract_field H. Qed.

Lemma v_UserMessage_content kvs m :
  v_UserMessage (PDict kvs) = Some m -> req v_MessageContent "content" kvs = Some (um_content m).
Proof. intros H. unfold v_UserMessage in H. extract_field H. Qed.

Lemma v_AssistantTranscriptEntry_message kvs a :
  v_AssistantTranscriptEntry (PDict kvs) = Some a ->
  req v_AssistantMessage "message" kvs = Some (ae_message a).
Proof. intros H. unfold v_AssistantTranscriptEntry in H. extract_field H. Qed.

Lemma v_AssistantMessage_fields kvs m :
  v_AssistantMessage (PDict kvs) = Some m ->
  req (v_list v_ContentItem) "content" kvs = Some (am_content m) /\
  opt_field v_UsageInfo "usage" kvs = Some (am_usage m).
Proof. intros H. unfold v_AssistantMessage in H. extract_field H. Qed.

Lemma v_QueueOperationTranscriptEntry_content kvs q :
  v_QueueOperationTranscriptEntry (PDict kvs) = Some q ->
  opt_field (v_list v_ContentItem) "content" kvs = Some (qe_content q).
Proof. intros H. unfold v_QueueOperationTranscriptEntry in H. extract_field H. Qed.


Lemma v_UserTranscriptEntry_bad_message kvs v :
  lookup "message" kvs = Some v -> v_UserMessage v = None ->
  v_UserTranscriptEntry (PDict kvs) = None.
Proof.
  intros Hl Hv. destruct (v_UserTranscriptEntry (PDict kvs)) eqn:E; [| reflexivity].
  apply v_UserTranscriptEntry_message in E. unfold req in E. rewrite Hl, Hv in E.
  discriminate.
Qed.

(** A [user] record whose [message] is not an object never decodes: a
    string holding "content" raises [AttributeError], a list holding the
    string "content" or a number, bool or null raises [TypeError], and any
    other string or list fails validation. *)
Theorem user_message_not_object (data : list (string * json)) (m : json) :
  lookup "type" data = Some (JStr "user") ->
  lookup "message" data = Some m ->
  json_is_dict m = false ->
  parse_transcript_entry data =
    Err (match m with
         | JStr s => if is_substring "content" s then AttributeError
                     else ValidationError "UserTranscriptEntry"
         | JList l => if existsb (fun x => json_eq_str x "content") l then TypeError
                      else ValidationError "UserTranscriptEntry"
         | _ => TypeError
         end).
Proof.
  intros Hty Hm Hnd.
  rewrite parse_transcript_entry_user by exact Hty.
  unfold parse_user_entry, user_parse_message, dict_has.
  cbn [json_getitem]. rewrite Hm.
  destruct m as [| b | z | s | l | kvs]; try discriminate; cbn [bind ret json_in]; try reflexivity.
  - destruct (is_substring "content" s); [reflexivity |]. cbn [bind ret].
    destruct (user_parse_tool_use_result_other data (pkvs data)) as [dc [-> Hdc]].
    cbn [bind]. rewrite (v_UserTranscriptEntry_bad_message dc (PStr s)); [reflexivity | |reflexivity].
    rewrite Hdc by discriminate. rewrite lookup_pkvs, Hm. reflexivity.
  - destruct (existsb (fun x => json_eq_str x "content") l); [reflexivity |]. cbn [bind ret].
    destruct (user_parse_tool_use_result_other data (pkvs data)) as [dc [-> Hdc]].
    cbn [bind]. rewrite (v_UserTranscriptEntry_bad_message dc (PList (map of_json l)));
      [reflexivity | | reflexivity].
    rewrite Hdc by discriminate. rewrite lookup_pkvs, Hm. reflexivity.
Qed.

Lemma user_message_not_object_witness :
  parse_transcript_entry (user_record_with_message (JStr "no content here")) =
    Err AttributeError.
Proof. apply (user_message_not_object _ (JStr "no content here")); reflexivity. Defined.

Lemma parse_message_content_other j :
  (forall s, j <> JStr s) -> (forall l, j <> JList l) ->
  parse_message_content j = Ok (PStr (py_str j)).
Proof.
  intros Hs Hl. destruct j; try reflexivity. exfalso; eapply Hl; reflexivity.
Qed.


Lemma user_parse_message_content data mkvs c pc :
  lookup "message" data = Some (JDict mkvs) -> lookup "content" mkvs = Some c ->
  parse_message_content c = Ok pc ->
  user_parse_message data =
    Ok (dict_set "message" (PDict (dict_set "content" pc (pkvs mkvs))) (pkvs data)).
Proof.
  intros Hm Hc Hp. unfold user_parse_message, dict_has.
  cbn [json_getitem]. rewrite Hm. cbn [bind ret json_in json_copy json_getitem].
  unfold dict_has. rewrite Hc. cbn [bind ret]. rewrite Hp. reflexivity.
Qed.

(** In a decoded [user] record whose message content is neither a string
    nor a list, the content is the string [str(content)]. *)
Theorem user_message_content_rendered (data mkvs : list (string * json)) (j : json)
    (u : UserTranscriptEntry) :
  lookup "type" data = Some (JStr "user") ->
  lookup "message" data = Some (JDict mkvs) ->
  lookup "content" mkvs = Some j ->
  (forall s, j <> JStr s) -> (forall l, j <> JList l) ->
  parse_transcript_entry data = Ok (EUser u) ->
  um_content (ue_message u) = MCStr (py_str j).
Proof.
  intros Hty Hm Hc Hs Hl H.
  rewrite parse_transcript_entry_user in H by exact Hty. unfold parse_user_entry in H.
  rewrite (user_parse_message_content data mkvs j _ Hm Hc (parse_message_content_other j Hs Hl))
    in H.
  cbn [bind] in H.
  destruct (user_parse_tool_use_result_other data
              (dict_set "message" (PDict (dict_set "content" (PStr (py_str j)) (pkvs mkvs)))
                 (pkvs data))) as [dc [Hdc Hk]].
  rewrite Hdc in H. cbn [bind] in H.
  destruct (v_UserTranscriptEntry (PDict dc)) as [u' |] eqn:E; cbn in H; [| discriminate].
  inversion H; subst u'.
  apply v_UserTranscriptEntry_message in E. unfold req in E.
  rewrite Hk, lookup_dict_set_eq in E by discriminate.
  apply v_UserMessage_content in E. unfold req in E. rewrite lookup_dict_set_eq in E.
  cbn in E. congruence.
Qed.

Lemma user_message_content_rendered_witness :
  exists u, parse_transcript_entry (user_record_with_content (JInt 42)) = Ok (EUser u) /\
    um_content (ue_message u) = MCStr (py_str (JInt 42)).
Proof.
  eexists. split; [vm_compute; reflexivity |].
  apply (user_message_content_rendered (user_record_with_content (JInt 42))
           [("role", JStr "user"); ("content", JInt 42)] (JInt 42));
    try reflexivity; try (intros ? ?; discriminate).
  all: vm_compute; reflexivity.
Defined.

Lemma normalize_usage_info_err v e :
  normalize_usage_info v = Err e -> exists m, e = ValidationError m.
Proof.
  unfold normalize_usage_info. intros H.
  destruct v; try discriminate;
  repeat match type of H with
         | context [if ?b then _ else _] => destruct b
         | context [v_AnthropicUsage ?x] => destruct (v_AnthropicUsage x)
         | context [v_UsageInfo ?x] => destruct (v_UsageInfo x)
         end; cbn in H; try discriminate; inversion H; eauto.
Qed.

Lemma parse_transcript_entry_assistant_path data :
  lookup "type" data = Some (JStr "assistant") ->
  parse_transcript_entry data = assistant_standard_path data.
Proof.
  intros H. rewrite parse_transcript_entry_assistant by exact H.
  unfold parse_assistant_entry, parse_assistant_entry_with.
  rewrite assistant_compat_check_ok. reflexivity.
Qed.

Lemma v_AssistantTranscriptEntry_message_content kvs mkvs a :
  v_AssistantTranscriptEntry (PDict kvs) = Some a ->
  lookup "message" kvs = Some (PDict mkvs) ->
  req (v_list v_ContentItem) "content" mkvs = Some (am_content (ae_message a)) /\
  opt_field v_UsageInfo "usage" mkvs = Some (am_usage (ae_message a)).
Proof.
  intros E Hm. apply v_AssistantTranscriptEntry_message in E. unfold req in E.
  rewrite Hm in E. exact (v_AssistantMessage_fields _ _ E).
Qed.

(** An [assistant] record whose message content is a string always raises a
    validation error. *)
Theorem assistant_string_content_rejected (data mkvs : list (string * json)) (s : string) :
  lookup "type" data = Some (JStr "assistant") ->
  lookup "message" data = Some (JDict mkvs) ->
  lookup "content" mkvs = Some (JStr s) ->
  exists model, parse_transcript_entry data = Err (ValidationError model).
Proof.
  intros Hty Hm Hc.
  rewrite parse_transcript_entry_assistant_path by exact Hty.
  unfold assistant_standard_path, dict_has. cbn [json_getitem]. rewrite Hm.
  cbn [bind ret json_in json_copy json_getitem]. unfold dict_has. rewrite Hc.
  cbn [bind ret parse_message_content].
  set (mc := dict_set "content" (PStr s) (pkvs mkvs)).
  assert (Hfinal : forall mc', lookup "content" mc' = Some (PStr s) ->
    (a <- validate "AssistantTranscriptEntry"
            (v_AssistantTranscriptEntry (PDict (dict_set "message" (PDict mc') (pkvs data)))) ;;
     ret (EAssistant a)) = Err (ValidationError "AssistantTranscriptEntry")).
  { intros mc' Hc'.
    destruct (v_AssistantTranscriptEntry (PDict (dict_set "message" (PDict mc') (pkvs data))))
      as [a |] eqn:E; [| reflexivity].
    destruct (v_AssistantTranscriptEntry_message_content _ mc' _ E (lookup_dict_set_eq _ _ _))
      as [Hcont _].
    unfold req in Hcont. rewrite Hc' in Hcont. discriminate. }
  destruct (lookup "usage" mc) as [uv |] eqn:Hu; cbn [bind].
  - assert (Hu' : lookup "usage" mkvs <> None).
    { unfold mc in Hu. rewrite lookup_dict_set_neq, lookup_pkvs in Hu by discriminate.
      destruct (lookup "usage" mkvs); discriminate. }
    destruct (lookup "usage" mkvs) as [uj |] eqn:Huj; [| congruence].
    cbn [bind ret].
    destruct (normalize_usage_info (of_json uj)) as [nu | e] eqn:En; cbn [bind ret].
    + eexists. apply Hfinal. rewrite lookup_dict_set_neq by discriminate.
      apply lookup_dict_set_eq.
    + destruct (normalize_usage_info_err _ _ En) as [m ->]. eauto.
  - cbn [bind ret]. eexists. apply Hfinal. apply lookup_dict_set_eq.
Qed.

Lemma assistant_string_content_rejected_witness :
  exists model, parse_transcript_entry
    (assistant_record_with_message (assistant_message_fields (JStr "hello") JNull)) =
    Err (ValidationError model).
Proof.
  apply (assistant_string_content_rejected _
           (assistant_message_fields (JStr "hello") JNull) "hello"); reflexivity.
Defined.

(** In a decoded [assistant] record whose message has [content] and
    [usage], the usage is [normalize_usage_info] of the raw usage. *)
Theorem assistant_usage_normalized (data mkvs : list (string * json)) (c uj : json)
    (a : AssistantTranscriptEntry) :
  lookup "type" data = Some (JStr "assistant") ->
  lookup "message" data = Some (JDict mkvs) ->
  lookup "content" mkvs = Some c ->
  lookup "usage" mkvs = Some uj ->
  parse_transcript_entry data = Ok (EAssistant a) ->
  normalize_usage_info (of_json uj) = Ok (am_usage (ae_message a)).
Proof.
  intros Hty Hm Hc Huj H.
  rewrite parse_transcript_entry_assistant_path in H by exact Hty.
  destruct (parse_message_content_ok c) as [pc Hp].
  unfold assistant_standard_path, dict_has in H. cbn [json_getitem] in H. rewrite Hm in H.
  cbn [bind ret json_in json_copy json_getitem] in H. unfold dict_has in H. rewrite Hc in H.
  cbn [bind ret] in H. rewrite Hp in H. cbn [bind] in H.
  rewrite lookup_dict_set_neq, lookup_pkvs, Huj in H by discriminate.
  cbn [option_map bind ret] in H.
  destruct (normalize_usage_info (of_json uj)) as [nu | e] eqn:En; cbn [bind ret] in H;
    [| discriminate].
  set (mc := dict_set "usage" (usage_to_py nu) (dict_set "content" pc (pkvs mkvs))) in H.
  destruct (v_AssistantTranscriptEntry (PDict (dict_set "message" (PDict mc) (pkvs data))))
    as [a' |] eqn:E; cbn [validate bind ret] in H; [| discriminate].
  inversion H; subst a'.
  destruct (v_AssistantTranscriptEntry_message_content _ mc _ E (lookup_dict_set_eq _ _ _))
    as [_ Hu]. unfold opt_field, dflt in Hu. unfold mc in Hu. rewrite lookup_dict_set_eq in Hu.
  destruct nu; cbn in Hu; congruence.
Qed.

Lemma assistant_usage_normalized_witness :
  exists a, parse_transcript_entry
    (assistant_record_with_message (assistant_message_fields (JList []) (JInt 3))) =
    Ok (EAssistant a) /\
  normalize_usage_info (of_json (JInt 3)) = Ok (am_usage (ae_message a)).
Proof.
  eexists. split; [vm_compute; reflexivity |].
  apply (assistant_usage_normalized
           (assistant_record_with_message (assistant_message_fields (JList []) (JInt 3)))
           (assistant_message_fields (JList []) (JInt 3)) (JList []) (JInt 3));
    try reflexivity.
  all: vm_compute; reflexivity.
Defined.

(** A decoded [queue-operation] record whose [content] is a list holds the
    decoded items of that list, in order. *)
Theorem queue_operation_content_parsed (data : list (string * json)) (l : list json)
    (q : QueueOperationTranscriptEntry) :
  lookup "type" data = Some (JStr "queue-operation") ->
  lookup "content" data = Some (JList l) ->
  parse_transcript_entry data = Ok (EQueueOperation q) ->
  exists cs, qe_content q = Some cs /\
    Forall2 (fun x c => parse_content_item x = Ok c) l cs.
Proof.
  intros Hty Hc H.
  rewrite parse_transcript_entry_queue in H by exact Hty.
  unfold parse_queue_operation_entry in H. rewrite Hc in H.
  destruct (mapM_total parse_content_item parse_content_item_ok l) as [cs Hcs].
  cbn [parse_message_content] in H. rewrite Hcs in H. cbn [bind ret] in H.
  destruct (v_QueueOperationTranscriptEntry
              (PDict (dict_set "content" (PList (map PContent cs)) (pkvs data))))
    as [q' |] eqn:E; cbn in H; [| discriminate].
  inversion H; subst q'.
  apply v_QueueOperationTranscriptEntry_content in E.
  unfold opt_field, dflt in E. rewrite lookup_dict_set_eq in E.
  cbn [v_opt v_list] in E. rewrite traverse_content_items in E. cbn in E.
  exists cs. split; [congruence | exact (mapM_Forall2 _ _ _ Hcs)].
Qed.

Lemma queue_operation_content_parsed_witness :
  exists q, parse_transcript_entry (queue_record (JList [ok_text_item; JStr "next"])) =
    Ok (EQueueOperation q) /\
  exists cs, qe_content q = Some cs /\
    Forall2 (fun x c => parse_content_item x = Ok c) [ok_text_item; JStr "next"] cs.
Proof.
  eexists. split; [vm_compute; reflexivity |].
  apply (queue_operation_content_parsed (queue_record (JList [ok_text_item; JStr "next"])));
    try reflexivity.
  all: vm_compute; reflexivity.
Defined.

(** A [queue-operation] record whose [content] is present but neither null
    nor a list raises a validation error. *)
Theorem queue_operation_content_not_list (data : list (string * json)) (j : json) :
  lookup "type" data = Some (JStr "queue-operation") ->
  lookup "content" data = Some j ->
  j <> JNull -> (forall l, j <> JList l) ->
  parse_transcript_entry data = Err (ValidationError "QueueOperationTranscriptEntry").
Proof.
  intros Hty Hc Hn Hl.
  rewrite parse_transcript_entry_queue by exact Hty.
  unfold parse_queue_operation_entry. rewrite Hc.
  assert (Hd : (match j with
                | JList l => pc <- parse_message_content (JList l) ;;
                             ret (dict_set "content" pc (pkvs data))
                | _ => ret (pkvs data)
                end) = ret (pkvs data)).
  { destruct j; try reflexivity. exfalso; eapply Hl; reflexivity. }
  rewrite Hd. cbn [bind ret].
  destruct (v_QueueOperationTranscriptEntry (PDict (pkvs data))) as [q |] eqn:E;
    [| reflexivity].
  apply v_QueueOperationTranscriptEntry_content in E.
  unfold opt_field, dflt in E. rewrite lookup_pkvs, Hc in E. cbn [option_map] in E.
  destruct j; try congruence; cbn in E; try discriminate.
  all: exfalso; eapply Hl; reflexivity.
Qed.

Lemma queue_operation_content_not_list_witness :
  parse_transcript_entry (queue_record (JStr "next")) =
    Err (ValidationError "QueueOperationTranscriptEntry").
Proof.
  apply (queue_operation_content_not_list _ (JStr "next")); try reflexivity;
    [discriminate | intros l; discriminate].
Defined.

(** ** Unknown top-level keys *)

Lemma lookup_app_neq {A} (l : list (string * A)) k v k' :
  k' <> k -> lookup k' (l ++ [(k, v)]) = lookup k' l.
Proof.
  intros Hne. induction l as [| [k0 v0] l IH]; cbn [app lookup].
  - destruct (String.eqb k' k) eqn:E; [apply String.eqb_eq in E; congruence | reflexivity].
  - destruct (String.eqb k' k0); [reflexivity | exact IH].
Qed.

Lemma same_except_pkvs data k v : same_except k (pkvs (data ++ [(k, v)])) (pkvs data).
Proof. intros k' Hk'. rewrite !lookup_pkvs, lookup_app_neq by exact Hk'. reflexivity. Qed.

Lemma same_except_dict_set {A} k key (x : A) l1 l2 :
  same_except k l1 l2 -> same_except k (dict_set key x l1) (dict_set key x l2).
Proof.
  intros H k' Hk'. destruct (String.eqb key k') eqn:E.
  - apply String.eqb_eq in E; subst. rewrite !lookup_dict_set_eq. reflexivity.
  - apply String.eqb_neq in E. rewrite !lookup_dict_set_neq by exact E. apply H, Hk'.
Qed.

Lemma res_rel_bind {A B} (R : A -> A -> Prop) (S : B -> B -> Prop) m1 m2
    (k1 k2 : _ -> res B) :
  res_rel R m1 m2 -> (forall a b, R a b -> res_rel S (k1 a) (k2 b)) ->
  res_rel S (bind m1 k1) (bind m2 k2).
Proof. destruct m1, m2; cbn; intros; subst; auto; contradiction. Qed.

Lemma res_rel_eq {A} (r1 r2 : res A) : res_rel eq r1 r2 -> r1 = r2.
Proof. destruct r1, r2; cbn; intros; subst; auto; contradiction. Qed.

Ltac not_decoder_key Hk :=
  let E := fresh in intro E; subst; apply Hk; cbn; tauto.

Ltac rewrite_lookups H Hk l1 :=
  repeat match goal with
         | |- context [lookup ?key l1] => rewrite (H key) by not_decoder_key Hk
         end.

Section UnknownKey.
Variable k : string.
Hypothesis Hk : ~ In k decoder_keys.

Lemma v_UserTranscriptEntry_ext l1 l2 :
  same_except k l1 l2 -> v_UserTranscriptEntry (PDict l1) = v_UserTranscriptEntry (PDict l2).
Proof.
  intros H. cbn [v_UserTranscriptEntry from_dict]. unfold v_Base, opt_field, dflt, req.
  rewrite_lookups H Hk l1. reflexivity.
Qed.

Lemma v_AssistantTranscriptEntry_ext l1 l2 :
  same_except k l1 l2 ->
  v_AssistantTranscriptEntry (PDict l1) = v_AssistantTranscriptEntry (PDict l2).
Proof.
  intros H. cbn [v_AssistantTranscriptEntry from_dict]. unfold v_Base, opt_field, dflt, req.
  rewrite_lookups H Hk l1. reflexivity.
Qed.

Lemma v_SummaryTranscriptEntry_ext l1 l2 :
  same_except k l1 l2 ->
  v_SummaryTranscriptEntry (PDict l1) = v_SummaryTranscriptEntry (PDict l2).
Proof.
  intros H. cbn [v_SummaryTranscriptEntry from_dict]. unfold opt_field, dflt, req.
  rewrite_lookups H Hk l1. reflexivity.
Qed.

Lemma v_SystemTranscriptEntry_ext l1 l2 :
  same_except k l1 l2 ->
  v_SystemTranscriptEntry (PDict l1) = v_SystemTranscriptEntry (PDict l2).
Proof.
  intros H. cbn [v_SystemTranscriptEntry from_dict]. unfold v_Base, opt_field, dflt, req.
  rewrite_lookups H Hk l1. reflexivity.
Qed.

Lemma v_QueueOperationTranscriptEntry_ext l1 l2 :
  same_except k l1 l2 ->
  v_QueueOperationTranscriptEntry (PDict l1) = v_QueueOperationTranscriptEntry (PDict l2).
Proof.
  intros H. cbn [v_QueueOperationTranscriptEntry from_dict]. unfold opt_field, dflt, req.
  rewrite_lookups H Hk l1. reflexivity.
Qed.

Lemma lookup_app_key (data : list (string * json)) v key :
  In key decoder_keys -> lookup key (data ++ [(k, v)]) = lookup key data.
Proof. intros Hin. apply lookup_app_neq. intros ->. exact (Hk Hin). Qed.

Lemma user_parse_message_ext data v :
  res_rel (same_except k) (user_parse_message (data ++ [(k, v)])) (user_parse_message data).
Proof.
  unfold user_parse_message, dict_has. cbn [json_getitem].
  rewrite !(lookup_app_key data v "message") by (cbn; tauto).
  destruct (lookup "message" data) as [m |]; cbn [bind ret res_rel];
    [| apply same_except_pkvs].
  destruct (json_in "content" m) as [[|] | e]; cbn [bind ret res_rel];
    [| apply same_except_pkvs | reflexivity].
  destruct (json_copy m) as [mc | e]; cbn [bind ret res_rel]; [| reflexivity].
  destruct (json_getitem mc "content") as [c | e]; cbn [bind ret res_rel]; [| reflexivity].
  destruct (parse_message_content c) as [pc | e]; cbn [bind ret res_rel]; [| reflexivity].
  destruct mc; cbn [bind ret res_rel]; try reflexivity.
  apply same_except_dict_set, same_except_pkvs.
Qed.

Lemma user_parse_tool_use_result_ext data v dc1 dc2 :
  same_except k dc1 dc2 ->
  res_rel (same_except k) (user_parse_tool_use_result (data ++ [(k, v)]) dc1)
                          (user_parse_tool_use_result data dc2).
Proof.
  intros H. unfold user_parse_tool_use_result.
  rewrite (lookup_app_key data v "toolUseResult") by (cbn; tauto).
  destruct (lookup "toolUseResult" data) as [[| | | | [| [] rest] |] |];
    cbn [res_rel]; try exact H.
  destruct (dict_has "type" kvs); cbn [res_rel]; [| exact H].
  destruct (mapM parse_content_item (filter json_is_dict (JDict kvs :: rest)));
    cbn [bind ret res_rel]; [| reflexivity].
  apply same_except_dict_set, H.
Qed.

Lemma parse_user_entry_ext data v :
  parse_user_entry (data ++ [(k, v)]) = parse_user_entry data.
Proof.
  apply res_rel_eq. unfold parse_user_entry.
  apply (res_rel_bind (same_except k)); [apply user_parse_message_ext |].
  intros dc1 dc2 H.
  apply (res_rel_bind (same_except k)); [apply user_parse_tool_use_result_ext, H |].
  intros dc1' dc2' H'. rewrite (v_UserTranscriptEntry_ext _ _ H').
  destruct (v_UserTranscriptEntry (PDict dc2')); reflexivity.
Qed.

Lemma assistant_standard_path_ext data v :
  assistant_standard_path (data ++ [(k, v)]) = assistant_standard_path data.
Proof.
  apply res_rel_eq. unfold assistant_standard_path.
  apply (res_rel_bind (same_except k)).
  - unfold dict_has. cbn [json_getitem].
    rewrite !(lookup_app_key data v "message") by (cbn; tauto).
    destruct (lookup "message" data) as [m |]; cbn [bind ret res_rel];
      [| apply same_except_pkvs].
    destruct (json_in "content" m) as [[|] | e]; cbn [bind ret res_rel];
      [| apply same_except_pkvs | reflexivity].
    destruct (json_copy m) as [mc | e]; cbn [bind ret res_rel]; [| reflexivity].
    destruct (json_getitem mc "content") as [c | e]; cbn [bind ret res_rel]; [| reflexivity].
    destruct (parse_message_content c) as [pc | e]; cbn [bind ret res_rel]; [| reflexivity].
    destruct mc; cbn [bind ret res_rel]; try reflexivity.
    match goal with
    | |- res_rel _ (bind ?m _) (bind ?m _) =>
        destruct m as [mc' | e]; cbn [bind ret res_rel]; [| reflexivity]
    end.
    apply same_except_dict_set, same_except_pkvs.
  - intros dc1 dc2 H. rewrite (v_AssistantTranscriptEntry_ext _ _ H).
    destruct (v_AssistantTranscriptEntry (PDict dc2)); reflexivity.
Qed.

Lemma parse_queue_operation_entry_ext data v :
  parse_queue_operation_entry (data ++ [(k, v)]) = parse_queue_operation_entry data.
Proof.
  apply res_rel_eq. unfold parse_queue_operation_entry.
  rewrite (lookup_app_key data v "content") by (cbn; tauto).
  apply (res_rel_bind (same_except k)).
  - destruct (lookup "content" data) as [[| | | | l |] |]; cbn [res_rel ret];
      try apply same_except_pkvs.
    destruct (parse_message_content (JList l)); cbn [bind ret res_rel]; [| reflexivity].
    apply same_except_dict_set, same_except_pkvs.
  - intros dc1 dc2 H. rewrite (v_QueueOperationTranscriptEntry_ext _ _ H).
    destruct (v_QueueOperationTranscriptEntry (PDict dc2)); reflexivity.
Qed.

End UnknownKey.

(** Adding a top-level key that no model reads leaves the result of
    [parse_transcript_entry] unchanged, value or exception. *)
Theorem parse_transcript_entry_ignores_unknown_key (data : list (string * json))
    (k : string) (v : json) :
  ~ In k decoder_keys ->
  parse_transcript_entry (data ++ [(k, v)]) = parse_transcript_entry data.
Proof.
  intros Hk. unfold parse_transcript_entry.
  rewrite (lookup_app_key k Hk data v "type") by (cbn; tauto).
  unfold parse_assistant_entry, parse_assistant_entry_with.
  rewrite !assistant_compat_check_ok. cbn [bind].
  rewrite parse_user_entry_ext, assistant_standard_path_ext, parse_queue_operation_entry_ext
    by exact Hk.
  rewrite (v_SummaryTranscriptEntry_ext k Hk _ _ (same_except_pkvs data k v)),
          (v_SystemTranscriptEntry_ext k Hk _ _ (same_except_pkvs data k v)).
  reflexivity.
Qed.

Lemma parse_transcript_entry_ignores_unknown_key_witness :
  parse_transcript_entry (mcp_user_record [ok_text_item] ++ [("slug", JStr "x")]) =
    parse_transcript_entry (mcp_user_record [ok_text_item]).
Proof.
  apply parse_transcript_entry_ignores_unknown_key. cbn. intuition discriminate.
Defined.

(** ** Encoding and decoding whole entries *)

Lemma pv_items_ok_of_json j : pv_items_ok (of_json j) = true.
Proof.
  destruct j as [| | | | l |]; try reflexivity. cbn [of_json pv_items_ok].
  induction l as [| x l IH]; [reflexivity |]. cbn [map forallb]. rewrite IH.
  destruct x; reflexivity.
Qed.

Lemma val_ok_of_json j : val_ok (of_json j) = true.
Proof.
  unfold val_ok. rewrite pv_items_ok_of_json. destruct j as [| | | | | kvs]; try reflexivity.
  change (msg_ok (PDict (pkvs kvs)) = true). cbn [msg_ok]. rewrite lookup_pkvs.
  destruct (lookup "content" kvs); [apply pv_items_ok_of_json | reflexivity].
Qed.

Lemma dict_ok_pkvs data : dict_ok (pkvs data).
Proof.
  intros k v H. rewrite lookup_pkvs in H. destruct (lookup k data); [| discriminate].
  inversion H; subst. apply val_ok_of_json.
Qed.

Lemma dict_ok_set k v dc : dict_ok dc -> val_ok v = true -> dict_ok (dict_set k v dc).
Proof.
  intros Hd Hv k' v' H. destruct (string_dec k k') as [<- | Hne].
  - rewrite lookup_dict_set_eq in H. inversion H; subst; exact Hv.
  - rewrite lookup_dict_set_neq in H by exact Hne. exact (Hd _ _ H).
Qed.

Lemma first_some_P {A} (P : A -> Prop) (fs : list (pyval -> option A)) v a :
  Forall (fun f => forall v a, f v = Some a -> P a) fs -> first_some fs v = Some a -> P a.
Proof.
  induction 1 as [| f fs Hf _ IH]; cbn [first_some]; [discriminate |].
  destruct (f v) eqn:E; [intros H; inversion H; subst; exact (Hf _ _ E) | exact IH].
Qed.

Ltac shape_cit :=
  let v := fresh "v" in let c := fresh "c" in let Hv := fresh "Hv" in
  intros v c Hv; destruct v; try discriminate;
  cbn [v_TextContent v_ToolUseContent v_ToolUseBlock v_ThinkingBlock v_ThinkingContent
       v_ToolResultContent v_ImageContent from_dict] in Hv;
  unfold option_bind in Hv;
  repeat match type of Hv with
         | context [match ?x with _ => _ end] => destruct x; try discriminate
         end;
  inversion Hv; subst; reflexivity.

Lemma v_ContentItem_ok x c :
  content_item_ok x = true -> v_ContentItem x = Some c -> citations_are_objects c = true.
Proof.
  intros Hx. destruct x; try (cbn [v_ContentItem]; apply (first_some_P (fun c => citations_are_objects c = true));
    repeat constructor; [shape_cit .. | exact v_TextBlock_citations | shape_cit | shape_cit]).
  cbn [v_ContentItem]. intros H; inversion H; subst; exact Hx.
Qed.

Lemma traverse_items_ok xs l :
  forallb content_item_ok xs = true -> traverse_opt v_ContentItem xs = Some l ->
  forallb citations_are_objects l = true.
Proof.
  revert l; induction xs as [| x xs IH]; intros l Hx H; cbn [traverse_opt] in H.
  - inversion H; reflexivity.
  - cbn [forallb] in Hx. apply andb_true_iff in Hx. destruct Hx as [Hx Hxs].
    unfold option_bind in H.
    destruct (v_ContentItem x) as [c |] eqn:Ec; [| discriminate].
    destruct (traverse_opt v_ContentItem xs) as [l' |] eqn:El; [| discriminate].
    inversion H; subst. cbn [forallb].
    rewrite (v_ContentItem_ok _ _ Hx Ec), (IH l' Hxs eq_refl). reflexivity.
Qed.

Lemma v_list_items_ok v l :
  pv_items_ok v = true -> v_list v_ContentItem v = Some l ->
  forallb citations_are_objects l = true.
Proof. destruct v; try discriminate. exact (traverse_items_ok _ _). Qed.

Lemma v_MessageContent_ok v mc :
  pv_items_ok v = true -> v_MessageContent v = Some mc ->
  forallb citations_are_objects (message_items mc) = true.
Proof.
  intros Hv H. unfold v_MessageContent in H. cbn [first_some] in H.
  destruct (option_map MCStr (v_str v)) eqn:E1.
  - inversion H; subst. destruct (v_str v); inversion E1; reflexivity.
  - destruct (v_list v_ContentItem v) eqn:E2; cbn [option_map] in H; [| discriminate].
    inversion H; subst. exact (v_list_items_ok _ _ Hv E2).
Qed.

Lemma v_UserMessage_ok v m :
  msg_ok v = true -> v_UserMessage v = Some m ->
  forallb citations_are_objects (message_items (um_content m)) = true.
Proof.
  intros Hv H. destruct v; try discriminate. cbn [v_UserMessage from_dict msg_ok] in *.
  unfold option_bind, req in H.
  destruct (lookup "role" kvs); [| discriminate]. destruct (v_literal _ _); [| discriminate].
  destruct (lookup "content" kvs); [| discriminate].
  destruct (v_MessageContent p0) eqn:E; [| discriminate].
  inversion H; subst. exact (v_MessageContent_ok _ _ Hv E).
Qed.

Lemma v_literal_in ls v s : v_literal ls v = Some s -> existsb (String.eqb s) ls = true.
Proof.
  destruct v; try discriminate. cbn [v_literal].
  destruct (existsb (String.eqb s0) ls) eqn:E; intros H; inversion H; subst; exact E.
Qed.

Lemma v_opt_literal_in ls p s :
  v_opt (v_literal ls) p = Some (Some s) -> existsb (String.eqb s) ls = true.
Proof.
  intros H. apply (v_literal_in ls p).
  destruct p; cbn [v_opt] in H; try discriminate;
    match type of H with context [option_map Some ?x] => destruct x end;
    cbn [option_map] in H; congruence.
Qed.

Lemma v_AssistantMessage_ok v m :
  msg_ok v = true -> v_AssistantMessage v = Some m ->
  forallb citations_are_objects (am_content m) && stop_ok (am_stop_reason m) = true.
Proof.
  intros Hv H. destruct v; try discriminate. cbn [v_AssistantMessage from_dict msg_ok] in *.
  unfold option_bind, req in H.
  destruct (lookup "id" kvs); [| discriminate]. destruct (v_str _); [| discriminate].
  destruct (lookup "type" kvs); [| discriminate]. destruct (v_literal _ _); [| discriminate].
  destruct (lookup "role" kvs); [| discriminate]. destruct (v_literal _ _); [| discriminate].
  destruct (lookup "model" kvs); [| discriminate]. destruct (v_str _); [| discriminate].
  destruct (lookup "content" kvs) as [cv |]; [| discriminate].
  destruct (v_list v_ContentItem cv) eqn:Ec; [| discriminate].
  destruct (opt_field (v_literal stop_reasons) "stop_reason" kvs) as [sr |] eqn:Es;
    [| discriminate].
  destruct (opt_field v_str "stop_sequence" kvs); [| discriminate].
  destruct (opt_field v_UsageInfo "usage" kvs); [| discriminate].
  inversion H; subst. cbn [am_content am_stop_reason].
  rewrite (v_list_items_ok _ _ Hv Ec). cbn [andb].
  destruct sr as [sr |]; [| reflexivity]. cbn [stop_ok].
  unfold opt_field, dflt in Es. destruct (lookup "stop_reason" kvs); [| discriminate].
  exact (v_opt_literal_in _ _ _ Es).
Qed.

Lemma v_TodoItem_ok v t : v_TodoItem v = Some t -> todo_ok t = true.
Proof.
  intros H. destruct v; try discriminate. cbn [v_TodoItem] in H.
  unfold option_bind, req in H.
  repeat match type of H with
         | context [match ?x with _ => _ end] =>
             let E := fresh "E" in destruct x eqn:E; try discriminate
         end.
  inversion H; subst. unfold todo_ok. cbn [todo_status todo_priority].
  repeat match goal with
         | E : match ?x with Some _ => _ | None => None end = Some _ |- _ =>
             destruct x; [| discriminate]
         end.
  repeat match goal with
         | E : v_literal _ _ = Some _ |- _ => rewrite (v_literal_in _ _ _ E); clear E
         end.
  reflexivity.
Qed.

Lemma traverse_todos_ok xs l : traverse_opt v_TodoItem xs = Some l -> forallb todo_ok l = true.
Proof.
  revert l; induction xs as [| x xs IH]; intros l H; cbn [traverse_opt] in H.
  - inversion H; reflexivity.
  - unfold option_bind in H.
    destruct (v_TodoItem x) as [t |] eqn:Et; [| discriminate].
    destruct (traverse_opt v_TodoItem xs) as [l' |] eqn:El; [| discriminate].
    inversion H; subst. cbn [forallb]. rewrite (v_TodoItem_ok _ _ Et), (IH l' eq_refl).
    reflexivity.
Qed.

Lemma v_list_todos_ok v l : v_list v_TodoItem v = Some l -> forallb todo_ok l = true.
Proof. destruct v; try discriminate. exact (traverse_todos_ok _ _). Qed.

Lemma v_opt_any_not_null v o : v_opt v_any v = Some o -> o <> Some JNull.
Proof.
  destruct v; cbn [v_opt]; intros H; inversion H; subst; try discriminate;
    unfold v_any in *; cbn [to_json option_map] in *; try congruence.
  - destruct (traverse_opt to_json l); cbn in H; inversion H; subst; discriminate.
  - destruct (traverse_opt _ kvs); cbn in H; inversion H; subst; discriminate.
Qed.

Lemma v_TodoResult_ok v tr :
  v_TodoResult v = Some tr ->
  forallb todo_ok (tr_oldTodos tr) && forallb todo_ok (tr_newTodos tr) = true.
Proof.
  intros H. destruct v; try discriminate. cbn [v_TodoResult from_dict] in H.
  unfold option_bind, req in H.
  destruct (lookup "oldTodos" kvs); [| discriminate].
  destruct (v_list v_TodoItem p) eqn:E1; [| discriminate].
  destruct (lookup "newTodos" kvs); [| discriminate].
  destruct (v_list v_TodoItem p0) eqn:E2; [| discriminate].
  inversion H; subst. cbn [tr_oldTodos tr_newTodos].
  rewrite (v_list_todos_ok _ _ E1), (v_list_todos_ok _ _ E2). reflexivity.
Qed.

Lemma v_EditResult_ok v er :
  v_EditResult v = Some er ->
  match er_structuredPatch er with Some JNull => false | _ => true end = true.
Proof.
  intros H. destruct v; try discriminate. cbn [v_EditResult from_dict] in H.
  unfold option_bind in H.
  destruct (opt_field v_str "oldString" kvs); [| discriminate].
  destruct (opt_field v_str "newString" kvs); [| discriminate].
  destruct (opt_field v_bool "replaceAll" kvs); [| discriminate].
  destruct (opt_field v_str "originalFile" kvs); [| discriminate].
  destruct (opt_field v_any "structuredPatch" kvs) as [sp |] eqn:Esp; [| discriminate].
  destruct (opt_field v_bool "userModified" kvs); [| discriminate].
  inversion H; subst. cbn [er_structuredPatch].
  assert (Hn : sp <> Some JNull).
  { unfold opt_field, dflt in Esp. destruct (lookup "structuredPatch" kvs).
    - exact (v_opt_any_not_null _ _ Esp).
    - inversion Esp; discriminate. }
  destruct sp as [[] |]; congruence.
Qed.

Lemma v_list_nil_todos {A} (f : pyval -> option A) v :
  v_list f v = Some [] -> v_list v_TodoItem v = Some [].
Proof.
  destruct v; try discriminate. destruct l as [| x l]; [reflexivity |].
  cbn [v_list traverse_opt option_bind].
  destruct (f x); [| discriminate]. destruct (traverse_opt f l); discriminate.
Qed.

Lemma v_ToolUseResult_ok v r :
  pv_items_ok v = true -> v_ToolUseResult v = Some r -> tool_use_result_ok r = true.
Proof.
  intros Hv H. unfold v_ToolUseResult in H. cbn [first_some] in H.
  destruct (v_str v); cbn [option_map] in H; [inversion H; reflexivity |].
  destruct (v_list v_TodoItem v) eqn:Et; cbn [option_map] in H.
  { inversion H; subst. exact (v_list_todos_ok _ _ Et). }
  destruct (v_FileReadResult v); cbn [option_map] in H; [inversion H; reflexivity |].
  destruct (v_CommandResult v); cbn [option_map] in H; [inversion H; reflexivity |].
  destruct (v_TodoResult v) eqn:Etr; cbn [option_map] in H.
  { inversion H; subst. exact (v_TodoResult_ok _ _ Etr). }
  destruct (v_EditResult v) eqn:Eer; cbn [option_map] in H.
  { inversion H; subst. exact (v_EditResult_ok _ _ Eer). }
  destruct (v_list v_ContentItem v) as [l |] eqn:Ec; cbn [option_map] in H; [| discriminate].
  inversion H; subst. cbn [tool_use_result_ok].
  destruct l as [| c l].
  - rewrite (v_list_nil_todos _ _ Ec) in Et. discriminate.
  - exact (v_list_items_ok _ _ Hv Ec).
Qed.

Lemma v_opt_ToolUseResult_ok v t :
  pv_items_ok v = true -> v_opt v_ToolUseResult v = Some t -> tur_opt_ok t = true.
Proof.
  intros Hv H. destruct v; cbn [v_opt] in H;
    try (inversion H; reflexivity);
    destruct (v_ToolUseResult _) eqn:E; inversion H; subst;
    exact (v_ToolUseResult_ok _ _ Hv E).
Qed.

Lemma parse_content_item_citations j c :
  parse_content_item j = Ok c -> citations_are_objects c = true.
Proof.
  apply (parse_content_item_cases (fun c => citations_are_objects c = true) j);
    [reflexivity | exact v_TextBlock_citations | validator_shape ..].
Qed.

Lemma mapM_parse_citations l cs :
  mapM parse_content_item l = Ok cs -> forallb citations_are_objects cs = true.
Proof.
  revert cs; induction l as [| x l IH]; intros cs H; cbn [mapM] in H.
  - inversion H; reflexivity.
  - destruct (parse_content_item x) as [c |] eqn:Ec; cbn [bind] in H; [| discriminate].
    destruct (mapM parse_content_item l) as [cs' |]; cbn [bind ret] in H; [| discriminate].
    inversion H; subst. cbn [forallb].
    rewrite (parse_content_item_citations _ _ Ec), (IH cs' eq_refl). reflexivity.
Qed.

Lemma forallb_map_PContent cs :
  forallb content_item_ok (map PContent cs) = forallb citations_are_objects cs.
Proof. induction cs as [| c cs IH]; cbn; [reflexivity | rewrite IH; reflexivity]. Qed.

Lemma parse_message_content_val_ok j pc :
  parse_message_content j = Ok pc -> val_ok pc = true.
Proof.
  destruct j; cbn [parse_message_content]; intros H; try (inversion H; reflexivity).
  destruct (mapM parse_content_item l) as [cs |] eqn:E; cbn [bind ret] in H; [| discriminate].
  inversion H; subst. unfold val_ok. cbn [pv_items_ok msg_ok].
  rewrite forallb_map_PContent, (mapM_parse_citations _ _ E). reflexivity.
Qed.

Lemma val_ok_message pc mkvs :
  val_ok pc = true -> val_ok (PDict (dict_set "content" pc mkvs)) = true.
Proof.
  intros H. unfold val_ok in *. apply andb_true_iff in H. destruct H as [H _].
  cbn [pv_items_ok msg_ok]. rewrite lookup_dict_set_eq. exact H.
Qed.

Lemma user_parse_message_dict_ok data dc : user_parse_message data = Ok dc -> dict_ok dc.
Proof.
  unfold user_parse_message. destruct (dict_has "message" data);
    [| intros H; inversion H; subst; apply dict_ok_pkvs].
  destruct (json_getitem (JDict data) "message") as [msg |]; cbn [bind]; [| discriminate].
  destruct (json_in "content" msg) as [[] |]; cbn [bind];
    [| intros H; inversion H; subst; apply dict_ok_pkvs | discriminate].
  destruct (json_copy msg) as [mc |]; cbn [bind]; [| discriminate].
  destruct (json_getitem mc "content") as [c |]; cbn [bind]; [| discriminate].
  destruct (parse_message_content c) as [pc |] eqn:Epc; cbn [bind]; [| discriminate].
  destruct mc; try discriminate. intros H; inversion H; subst.
  apply dict_ok_set; [apply dict_ok_pkvs |].
  apply val_ok_message. exact (parse_message_content_val_ok _ _ Epc).
Qed.

Lemma user_parse_tool_use_result_dict_ok data dc dc' :
  dict_ok dc -> user_parse_tool_use_result data dc = Ok dc' -> dict_ok dc'.
Proof.
  intros Hd. unfold user_parse_tool_use_result.
  destruct (lookup "toolUseResult" data) as [[| | | | l |] |];
    try (intros H; inversion H; subst; exact Hd).
  destruct l as [| [| | | | | first] rest]; try (intros H; inversion H; subst; exact Hd).
  destruct (dict_has "type" first); [| intros H; inversion H; subst; exact Hd].
  destruct (mapM parse_content_item _) as [cs |] eqn:E; cbn [bind ret]; [| discriminate].
  intros H; inversion H; subst. apply dict_ok_set; [exact Hd |].
  unfold val_ok. cbn [pv_items_ok msg_ok].
  rewrite forallb_map_PContent, (mapM_parse_citations _ _ E). reflexivity.
Qed.

Lemma val_ok_split v : val_ok v = true -> pv_items_ok v = true /\ msg_ok v = true.
Proof. unfold val_ok. apply andb_true_iff. Qed.

Lemma v_UserTranscriptEntry_ok dc u :
  dict_ok dc -> v_UserTranscriptEntry (PDict dc) = Some u -> entry_ok (EUser u) = true.
Proof.
  intros Hd H. cbn [v_UserTranscriptEntry from_dict] in H. unfold option_bind in H.
  destruct (v_Base dc); [| discriminate].
  destruct (req (v_literal ["user"]) "type" dc); [| discriminate].
  destruct (req v_UserMessage "message" dc) as [m |] eqn:Em; [| discriminate].
  destruct (opt_field v_ToolUseResult "toolUseResult" dc) as [t |] eqn:Et; [| discriminate].
  inversion H; subst. cbn [entry_ok ue_message ue_toolUseResult].
  unfold req in Em. destruct (lookup "message" dc) eqn:Lm; [| discriminate].
  rewrite (v_UserMessage_ok _ _ (proj2 (val_ok_split _ (Hd _ _ Lm))) Em). cbn [andb].
  unfold opt_field, dflt in Et. destruct (lookup "toolUseResult" dc) eqn:Lt.
  - exact (v_opt_ToolUseResult_ok _ _ (proj1 (val_ok_split _ (Hd _ _ Lt))) Et).
  - inversion Et; reflexivity.
Qed.

Lemma parse_user_entry_ok data e : parse_user_entry data = Ok e -> entry_ok e = true.
Proof.
  unfold parse_user_entry.
  destruct (user_parse_message data) as [dc |] eqn:E1; cbn [bind]; [| discriminate].
  destruct (user_parse_tool_use_result data dc) as [dc' |] eqn:E2; cbn [bind]; [| discriminate].
  destruct (v_UserTranscriptEntry (PDict dc')) as [u |] eqn:E3; cbn [validate bind ret];
    [| discriminate].
  intros H; inversion H; subst.
  exact (v_UserTranscriptEntry_ok _ _
           (user_parse_tool_use_result_dict_ok _ _ _ (user_parse_message_dict_ok _ _ E1) E2) E3).
Qed.

Lemma assistant_standard_path_ok data e :
  assistant_standard_path data = Ok e -> entry_ok e = true.
Proof.
  unfold assistant_standard_path.
  assert (Hdc : forall dc,
    (if dict_has "message" data then
       msg <- json_getitem (JDict data) "message" ;;
       has_content <- json_in "content" msg ;;
       if has_content then
         message_copy <- json_copy msg ;;
         c <- json_getitem message_copy "content" ;;
         pc <- parse_message_content c ;;
         match message_copy with
         | JDict mkvs =>
             let mc := dict_set "content" pc (pkvs mkvs) in
             mc <- (if dict_has "usage" mc then
                      u <- json_getitem message_copy "usage" ;;
                      nu <- normalize_usage_info (of_json u) ;;
                      ret (dict_set "usage" (usage_to_py nu) mc)
                    else ret mc) ;;
             ret (dict_set "message" (PDict mc) (pkvs data))
         | _ => Err TypeError
         end
       else ret (pkvs data)
     else ret (pkvs data)) = Ok dc -> dict_ok dc).
  { intros dc. destruct (dict_has "message" data);
      [| intros H; inversion H; subst; apply dict_ok_pkvs].
    destruct (json_getitem (JDict data) "message") as [msg |]; cbn [bind]; [| discriminate].
    destruct (json_in "content" msg) as [[] |]; cbn [bind];
      [| intros H; inversion H; subst; apply dict_ok_pkvs | discriminate].
    destruct (json_copy msg) as [mc |]; cbn [bind]; [| discriminate].
    destruct (json_getitem mc "content") as [c |]; cbn [bind]; [| discriminate].
    destruct (parse_message_content c) as [pc |] eqn:Epc; cbn [bind]; [| discriminate].
    pose proof (parse_message_content_val_ok _ _ Epc) as Hpc.
    destruct mc; try discriminate.
    destruct (dict_has "usage" _).
    - destruct (json_getitem (JDict kvs) "usage") as [u |]; cbn [bind]; [| discriminate].
      destruct (normalize_usage_info (of_json u)) as [nu |]; cbn [bind ret]; [| discriminate].
      intros H; inversion H; subst. apply dict_ok_set; [apply dict_ok_pkvs |].
      apply val_ok_split in Hpc. destruct Hpc as [Hpc _].
      unfold val_ok. cbn [pv_items_ok msg_ok].
      rewrite lookup_dict_set_neq by discriminate. rewrite lookup_dict_set_eq. exact Hpc.
    - cbn [bind ret]. intros H; inversion H; subst. apply dict_ok_set; [apply dict_ok_pkvs |].
      apply val_ok_message. exact Hpc. }
  match goal with |- context [bind ?m _] =>
    match m with context [dict_has "message" data] => destruct m as [dc |] eqn:Edc end end;
    cbn [bind]; [| discriminate].
  specialize (Hdc dc eq_refl).
  destruct (v_AssistantTranscriptEntry (PDict dc)) as [a |] eqn:Ea; cbn [validate bind ret];
    [| discriminate].
  intros H; inversion H; subst. cbn [entry_ok].
  cbn [v_AssistantTranscriptEntry from_dict] in Ea. unfold option_bind in Ea.
  destruct (v_Base dc); [| discriminate].
  destruct (req (v_literal ["assistant"]) "type" dc); [| discriminate].
  destruct (req v_AssistantMessage "message" dc) as [m |] eqn:Em; [| discriminate].
  destruct (opt_field v_str "requestId" dc); [| discriminate].
  inversion Ea; subst. cbn [ae_message].
  unfold req in Em. destruct (lookup "message" dc) eqn:Lm; [| discriminate].
  exact (v_AssistantMessage_ok _ _ (proj2 (val_ok_split _ (Hdc _ _ Lm))) Em).
Qed.

Lemma parse_queue_operation_entry_ok data e :
  parse_queue_operation_entry data = Ok e -> entry_ok e = true.
Proof.
  unfold parse_queue_operation_entry.
  assert (Hdc : forall dc,
    (match lookup "content" data with
     | Some (JList l) =>
         pc <- parse_message_content (JList l) ;; ret (dict_set "content" pc (pkvs data))
     | _ => ret (pkvs data)
     end) = Ok dc -> dict_ok dc).
  { intros dc. destruct (lookup "content" data) as [[| | | | l |] |];
      try (intros H; inversion H; subst; apply dict_ok_pkvs).
    destruct (parse_message_content (JList l)) as [pc |] eqn:Epc; cbn [bind ret];
      [| discriminate].
    intros H; inversion H; subst. apply dict_ok_set; [apply dict_ok_pkvs |].
    exact (parse_message_content_val_ok _ _ Epc). }
  match goal with |- context [bind ?m _] =>
    match m with context [lookup "content" data] => destruct m as [dc |] eqn:Edc end end;
    cbn [bind]; [| discriminate].
  specialize (Hdc dc eq_refl).
  destruct (v_QueueOperationTranscriptEntry (PDict dc)) as [q |] eqn:Eq; cbn [validate bind ret];
    [| discriminate].
  intros H; inversion H; subst. cbn [entry_ok].
  cbn [v_QueueOperationTranscriptEntry from_dict] in Eq. unfold option_bind in Eq.
  destruct (req (v_literal ["queue-operation"]) "type" dc); [| discriminate].
  destruct (req (v_literal ["enqueue"; "dequeue"]) "operation" dc) as [op |] eqn:Eop;
    [| discriminate].
  destruct (req v_str "timestamp" dc); [| discriminate].
  destruct (req v_str "sessionId" dc); [| discriminate].
  destruct (opt_field (v_list v_ContentItem) "content" dc) as [c |] eqn:Ec; [| discriminate].
  inversion Eq; subst. cbn [qe_content qe_operation].
  unfold req in Eop. destruct (lookup "operation" dc); [| discriminate].
  rewrite (v_literal_in _ _ _ Eop), andb_true_r.
  unfold opt_field, dflt in Ec. destruct (lookup "content" dc) as [cv |] eqn:Lc.
  - destruct cv; cbn [v_opt] in Ec; try (inversion Ec; reflexivity);
      destruct (v_list v_ContentItem _) eqn:El; inversion Ec; subst;
      exact (v_list_items_ok _ _ (proj1 (val_ok_split _ (Hdc _ _ Lc))) El).
  - inversion Ec; reflexivity.
Qed.

Lemma parse_transcript_entry_ok data e :
  parse_transcript_entry data = Ok e -> entry_ok e = true.
Proof.
  unfold parse_transcript_entry.
  destruct (json_eq_str _ "user"); [apply parse_user_entry_ok |].
  destruct (json_eq_str _ "assistant").
  { unfold parse_assistant_entry, parse_assistant_entry_with.
    rewrite assistant_compat_check_ok. cbn [bind]. apply assistant_standard_path_ok. }
  destruct (json_eq_str _ "summary").
  { destruct (v_SummaryTranscriptEntry _); cbn [validate bind ret]; [| discriminate].
    intros H; inversion H; reflexivity. }
  destruct (json_eq_str _ "system").
  { destruct (v_SystemTranscriptEntry _); cbn [validate bind ret]; [| discriminate].
    intros H; inversion H; reflexivity. }
  destruct (json_eq_str _ "queue-operation"); [apply parse_queue_operation_entry_ok |].
  discriminate.
Qed.

Lemma redecoded_citations c :
  citations_are_objects c = true -> citations_are_objects (redecoded_item c) = true.
Proof. destruct c as [| | | t [|] | | | |]; auto. Qed.

Lemma mapM_parse_dump l :
  forallb citations_are_objects l = true ->
  mapM parse_content_item (map dump_ContentItem l) = Ok (map redecoded_item l).
Proof.
  induction l as [| c l IH]; intros H; [reflexivity |].
  cbn [forallb] in H. apply andb_true_iff in H. destruct H as [H1 H2].
  cbn [map mapM]. rewrite dump_ContentItem_decodes by exact H1. cbn [bind ret].
  rewrite IH by exact H2. reflexivity.
Qed.

Lemma parse_message_content_dump l :
  forallb citations_are_objects l = true ->
  parse_message_content (JList (map dump_ContentItem l)) =
    Ok (PList (map PContent (map redecoded_item l))).
Proof. intros H. cbn [parse_message_content]. rewrite mapM_parse_dump by exact H. reflexivity. Qed.

Lemma dump_ContentItem_has_type c :
  exists kvs, dump_ContentItem c = JDict kvs /\ dict_has "type" kvs = true.
Proof. destruct c; eexists; split; reflexivity. Qed.

Lemma filter_dumps l : filter json_is_dict (map dump_ContentItem l) = map dump_ContentItem l.
Proof.
  induction l as [| c l IH]; [reflexivity |]. cbn [map filter].
  destruct (dump_ContentItem_has_type c) as [kvs [-> _]]. cbn [json_is_dict]. rewrite IH. reflexivity.
Qed.

Lemma user_parse_tool_use_result_dump data dc t :
  lookup "toolUseResult" data = Some (dump_opt dump_ToolUseResult t) ->
  tur_opt_ok t = true ->
  user_parse_tool_use_result data dc =
    Ok (match t with
        | Some (TURContent l) =>
            dict_set "toolUseResult" (PList (map PContent (map redecoded_item l))) dc
        | _ => dc
        end).
Proof.
  intros H Hok. unfold user_parse_tool_use_result. rewrite H.
  destruct t as [r |]; [| reflexivity].
  destruct r as [s | l | f | c | tr | er | l]; try reflexivity.
  - destruct l; reflexivity.
  - destruct l as [| c rest]; [discriminate |].
    cbn [tur_opt_ok tool_use_result_ok] in Hok.
    cbn [dump_opt dump_ToolUseResult map].
    destruct (dump_ContentItem_has_type c) as [kvs [Hd Ht]]. rewrite Hd, Ht.
    rewrite <- Hd. change (dump_ContentItem c :: map dump_ContentItem rest)
      with (map dump_ContentItem (c :: rest)).
    rewrite filter_dumps, mapM_parse_dump by exact Hok. reflexivity.
Qed.

Lemma user_parse_message_dict data mkvs c pc :
  lookup "message" data = Some (JDict mkvs) -> lookup "content" mkvs = Some c ->
  parse_message_content c = Ok pc ->
  user_parse_message data =
    Ok (dict_set "message" (PDict (dict_set "content" pc (pkvs mkvs))) (pkvs data)).
Proof.
  intros H1 H2 H3. unfold user_parse_message, dict_has. rewrite H1.
  cbn [json_getitem bind]. rewrite H1. cbn [bind ret json_in]. unfold dict_has.
  rewrite H2. cbn [json_copy bind ret json_getitem]. rewrite H2.
  cbn [bind ret]. rewrite H3. reflexivity.
Qed.

Lemma v_MessageContent_py mc : v_MessageContent (message_content_py mc) = Some mc.
Proof.
  destruct mc as [s | l]; [reflexivity |].
  unfold v_MessageContent. cbn [first_some message_content_py v_list v_str option_map].
  rewrite traverse_content_items. reflexivity.
Qed.

Lemma parse_message_content_dump_mc mc :
  forallb citations_are_objects (message_items mc) = true ->
  parse_message_content (match mc with
                         | MCStr s => JStr s
                         | MCItems l => JList (map dump_ContentItem l)
                         end) =
    Ok (message_content_py (redecoded_message_content mc)).
Proof.
  destruct mc as [s | l]; [reflexivity |]. intros H. cbn [message_items] in H.
  rewrite parse_message_content_dump by exact H. reflexivity.
Qed.

Lemma v_UserTranscriptEntry_of dc b m t :
  v_Base dc = Some b -> req (v_literal ["user"]) "type" dc = Some "user" ->
  req v_UserMessage "message" dc = Some m ->
  opt_field v_ToolUseResult "toolUseResult" dc = Some t ->
  v_UserTranscriptEntry (PDict dc) = Some (mkUserEntry b m t).
Proof.
  intros H1 H2 H3 H4. cbn [v_UserTranscriptEntry from_dict].
  rewrite H1; cbn [option_bind]. rewrite H2; cbn [option_bind].
  rewrite H3; cbn [option_bind]. rewrite H4. reflexivity.
Qed.

Lemma v_Base_of kvs b :
  (forall k, In k base_keys -> lookup k kvs = lookup k (pkvs (dump_Base b))) ->
  v_Base kvs = Some b.
Proof.
  intros H. unfold v_Base, req, opt_field, dflt.
  rewrite !H by (cbn; tauto).
  destruct b as [[p |] sc ut cwd sid ver u ts [im |]]; reflexivity.
Qed.

Ltac base_keys_agree :=
  let k := fresh "k" in let Hk := fresh "Hk" in
  intros k Hk; cbn [base_keys In] in Hk;
  repeat (destruct Hk as [<- | Hk]; [reflexivity |]); destruct Hk.

Lemma req_lookup {A} (f : pyval -> option A) k kvs v :
  lookup k kvs = Some v -> req f k kvs = f v.
Proof. intros H. unfold req. rewrite H. reflexivity. Qed.

Lemma opt_field_lookup {A} (f : pyval -> option A) k kvs v :
  lookup k kvs = Some v -> opt_field f k kvs = v_opt f v.
Proof. intros H. unfold opt_field, dflt. rewrite H. reflexivity. Qed.

Lemma v_UserMessage_user v :
  v_UserMessage (PDict [("role", PStr "user"); ("content", v)]) =
    option_map mkUserMessage (v_MessageContent v).
Proof. reflexivity. Qed.

Lemma v_TodoItem_dump t : todo_ok t = true -> v_TodoItem (of_json (dump_TodoItem t)) = Some t.
Proof.
  destruct t as [i c st p]. unfold todo_ok. cbn [todo_status todo_priority].
  intros H. apply andb_true_iff in H. destruct H as [H1 H2].
  cbn [dump_TodoItem of_json map fst snd v_TodoItem req lookup String.eqb Ascii.eqb Bool.eqb
       andb todo_id todo_content todo_status todo_priority].
  unfold v_literal. rewrite H1, H2. reflexivity.
Qed.

Lemma traverse_todos_dump l :
  forallb todo_ok l = true ->
  traverse_opt v_TodoItem (map of_json (map dump_TodoItem l)) = Some l.
Proof.
  induction l as [| t l IH]; intros H; [reflexivity |].
  cbn [forallb] in H. apply andb_true_iff in H. destruct H as [H1 H2].
  cbn [map traverse_opt]. rewrite v_TodoItem_dump by exact H1. cbn [option_bind].
  rewrite IH by exact H2. reflexivity.
Qed.

Lemma v_opt_any_of_json j : j <> JNull -> v_opt v_any (of_json j) = Some (Some j).
Proof.
  intros Hj. unfold v_opt, v_any. pose proof (to_json_of_json j) as T.
  destruct (of_json j) eqn:E;
    try (rewrite T; reflexivity).
  destruct j; cbn [of_json] in E; congruence.
Qed.

Lemma v_opt_ToolUseResult_dump t :
  tur_opt_ok t = true ->
  v_opt v_ToolUseResult (tool_use_result_py t) = Some (option_map redecoded_tool_use_result t).
Proof.
  destruct t as [r |]; [| reflexivity]. cbn [tur_opt_ok tool_use_result_ok].
  destruct r as [s | l | [[fp fc fn fs ft]] | [o e i im] | [ol nl] | [os ns ra of sp um] | l];
    intros H; try reflexivity.
  - unfold tool_use_result_py, v_opt, v_ToolUseResult. cbn [dump_opt dump_ToolUseResult of_json].
    cbn [first_some v_str option_map v_list]. rewrite traverse_todos_dump by exact H. reflexivity.
  - apply andb_true_iff in H. destruct H as [H1 H2].
    unfold tool_use_result_py, v_opt, v_ToolUseResult. cbn [dump_opt dump_ToolUseResult of_json].
    cbn [first_some v_str option_map v_list map fst snd v_FileReadResult v_CommandResult
         v_TodoResult from_dict req lookup String.eqb Ascii.eqb Bool.eqb andb].
    cbn [option_bind option_map of_json v_list tr_oldTodos tr_newTodos map].
    rewrite traverse_todos_dump by exact H1. cbn [option_bind].
    rewrite traverse_todos_dump by exact H2. reflexivity.
  - unfold tool_use_result_py, v_opt, v_ToolUseResult. cbn [dump_opt dump_ToolUseResult of_json].
    cbn [first_some v_str option_map v_list map fst snd v_FileReadResult v_CommandResult
         v_TodoResult v_EditResult from_dict req lookup String.eqb Ascii.eqb Bool.eqb andb
         er_oldString er_newString er_replaceAll er_originalFile er_structuredPatch
         er_userModified].
    cbn [er_structuredPatch] in H.
    assert (Hsp : opt_field v_any "structuredPatch"
                    [("oldString", of_json (dump_opt JStr os));
                     ("newString", of_json (dump_opt JStr ns));
                     ("replaceAll", of_json (dump_opt JBool ra));
                     ("originalFile", of_json (dump_opt JStr of));
                     ("structuredPatch", of_json (dump_opt (fun j => j) sp));
                     ("userModified", of_json (dump_opt JBool um))] = Some sp).
    { unfold opt_field, dflt. cbn [lookup String.eqb Ascii.eqb Bool.eqb andb].
      destruct sp as [j |]; [| reflexivity]. cbn [dump_opt].
      apply v_opt_any_of_json. intros E; subst j; discriminate H. }
    match goal with |- context [opt_field v_any "structuredPatch" ?kvs] =>
      change (opt_field v_any "structuredPatch" kvs) with
        (opt_field v_any "structuredPatch"
           [("oldString", of_json (dump_opt JStr os));
            ("newString", of_json (dump_opt JStr ns));
            ("replaceAll", of_json (dump_opt JBool ra));
            ("originalFile", of_json (dump_opt JStr of));
            ("structuredPatch", of_json (dump_opt (fun j => j) sp));
            ("userModified", of_json (dump_opt JBool um))]) end.
    rewrite Hsp.
    destruct os, ns, ra, of, um; reflexivity.
  - destruct l as [| c l]; [discriminate |].
    unfold tool_use_result_py, v_opt.
    change (map redecoded_item (c :: l)) with (redecoded_item c :: map redecoded_item l).
    rewrite v_ToolUseResult_content. reflexivity.
Qed.

Lemma roundtrip_user u :
  entry_ok (EUser u) = true ->
  parse_transcript_entry (dump_entry (EUser u)) = Ok (redecoded_entry (EUser u)).
Proof.
  intros Hok. destruct u as [b [mc] t]. cbn [entry_ok ue_message ue_toolUseResult um_content] in Hok.
  apply andb_true_iff in Hok. destruct Hok as [Hmc Ht].
  rewrite parse_transcript_entry_user by reflexivity.
  unfold parse_user_entry.
  erewrite user_parse_message_dict;
    [| reflexivity | reflexivity | exact (parse_message_content_dump_mc mc Hmc)].
  cbn [bind].
  erewrite user_parse_tool_use_result_dump; [| reflexivity | exact Ht]. cbn [bind].
  destruct t as [[] |];
  (erewrite v_UserTranscriptEntry_of;
   [ reflexivity
   | apply v_Base_of; base_keys_agree
   | reflexivity
   | rewrite (req_lookup _ _ _ (PDict [("role", PStr "user");
         ("content", message_content_py (redecoded_message_content mc))])) by reflexivity;
     rewrite v_UserMessage_user, v_MessageContent_py;
     reflexivity
   | erewrite opt_field_lookup;
     [ apply (v_opt_ToolUseResult_dump _ Ht) | reflexivity ] ]).
Qed.

Lemma v_opt_dict_any_dump stu :
  v_opt v_dict_any (of_json (dump_opt JDict stu)) = Some stu.
Proof.
  destruct stu as [l |]; [| reflexivity]. cbn [dump_opt].
  change (of_json (JDict l)) with (PDict (pkvs l)). unfold v_opt.
  rewrite v_dict_any_pkvs. reflexivity.
Qed.

Lemma v_UsageInfo_dump u : v_UsageInfo (of_json (dump_UsageInfo u)) = Some u.
Proof.
  destruct u as [i cc cr o st stu].
  unfold v_UsageInfo, opt_field, dflt.
  cbn [of_json dump_UsageInfo map fst snd lookup String.eqb Ascii.eqb Bool.eqb andb
       ui_input_tokens ui_cache_creation_input_tokens ui_cache_read_input_tokens
       ui_output_tokens ui_service_tier ui_server_tool_use].
  rewrite v_opt_dict_any_dump.
  destruct i, cc, cr, o, st; reflexivity.
Qed.

Lemma normalize_usage_info_dict kvs :
  normalize_usage_info (PDict kvs) =
    (u <- validate "UsageInfo" (v_UsageInfo (PDict kvs)) ;; ret (Some u)).
Proof. reflexivity. Qed.

Lemma normalize_usage_info_dump u :
  normalize_usage_info (of_json (dump_opt dump_UsageInfo u)) = Ok u.
Proof.
  destruct u as [u |]; [| reflexivity]. cbn [dump_opt].
  assert (E : exists kvs, of_json (dump_UsageInfo u) = PDict kvs) by (eexists; reflexivity).
  destruct E as [kvs E]. rewrite E, normalize_usage_info_dict, <- E, v_UsageInfo_dump.
  reflexivity.
Qed.

Lemma assistant_standard_path_dict data mkvs c pc uj nu :
  lookup "message" data = Some (JDict mkvs) -> lookup "content" mkvs = Some c ->
  parse_message_content c = Ok pc -> lookup "usage" mkvs = Some uj ->
  normalize_usage_info (of_json uj) = Ok nu ->
  assistant_standard_path data =
    (a <- validate "AssistantTranscriptEntry" (v_AssistantTranscriptEntry (PDict
            (dict_set "message"
               (PDict (dict_set "usage" (usage_to_py nu) (dict_set "content" pc (pkvs mkvs))))
               (pkvs data)))) ;;
     ret (EAssistant a)).
Proof.
  intros H1 H2 H3 H4 H5. unfold assistant_standard_path, dict_has. rewrite H1.
  cbn [json_getitem bind]. rewrite H1. cbn [bind ret json_in]. unfold dict_has.
  rewrite H2. cbn [json_copy bind ret json_getitem]. rewrite H2.
  cbn [bind ret]. rewrite H3. cbn [bind].
  rewrite lookup_dict_set_neq by discriminate. rewrite lookup_pkvs, H4.
  cbn [option_map bind ret]. rewrite H5. reflexivity.
Qed.

Lemma v_AssistantTranscriptEntry_of dc b m r :
  v_Base dc = Some b -> req (v_literal ["assistant"]) "type" dc = Some "assistant" ->
  req v_AssistantMessage "message" dc = Some m ->
  opt_field v_str "requestId" dc = Some r ->
  v_AssistantTranscriptEntry (PDict dc) = Some (mkAssistantEntry b m r).
Proof.
  intros H1 H2 H3 H4. cbn [v_AssistantTranscriptEntry from_dict].
  rewrite H1; cbn [option_bind]. rewrite H2; cbn [option_bind].
  rewrite H3; cbn [option_bind]. rewrite H4. reflexivity.
Qed.

Lemma v_AssistantMessage_dump i md l sr ss u :
  stop_ok sr = true ->
  v_AssistantMessage (PDict
    [("id", PStr i); ("type", PStr "message"); ("role", PStr "assistant");
     ("model", PStr md); ("content", PList (map PContent l));
     ("stop_reason", of_json (dump_opt JStr sr));
     ("stop_sequence", of_json (dump_opt JStr ss)); ("usage", usage_to_py u)]) =
  Some (mkAssistantMessage i md l sr ss u).
Proof.
  intros Hsr. unfold v_AssistantMessage, from_dict, req, opt_field, dflt.
  cbn [lookup String.eqb Ascii.eqb Bool.eqb andb option_bind v_str v_list].
  rewrite traverse_content_items. cbn [option_bind].
  destruct sr as [sr |]; cbn [stop_ok] in Hsr.
  - cbn [dump_opt of_json v_opt option_map]. unfold v_literal at 3. rewrite Hsr.
    destruct ss, u; reflexivity.
  - destruct ss, u; reflexivity.
Qed.

Lemma roundtrip_assistant a :
  entry_ok (EAssistant a) = true ->
  parse_transcript_entry (dump_entry (EAssistant a)) = Ok (redecoded_entry (EAssistant a)).
Proof.
  intros Hok. destruct a as [b [i md l sr ss u] r].
  cbn [entry_ok ae_message am_content am_stop_reason] in Hok.
  apply andb_true_iff in Hok. destruct Hok as [Hl Hsr].
  rewrite parse_transcript_entry_assistant_path by reflexivity.
  erewrite assistant_standard_path_dict;
    [| reflexivity | reflexivity | exact (parse_message_content_dump l Hl) | reflexivity
     | exact (normalize_usage_info_dump u)].
  erewrite v_AssistantTranscriptEntry_of;
   [ reflexivity
   | apply v_Base_of; base_keys_agree
   | reflexivity
   | rewrite (req_lookup _ _ _ (PDict
        [("id", PStr i); ("type", PStr "message"); ("role", PStr "assistant");
         ("model", PStr md); ("content", PList (map PContent (map redecoded_item l)));
         ("stop_reason", of_json (dump_opt JStr sr));
         ("stop_sequence", of_json (dump_opt JStr ss)); ("usage", usage_to_py u)]))
       by reflexivity;
     apply v_AssistantMessage_dump; exact Hsr
   | destruct r; reflexivity ].
Qed.

Lemma roundtrip_queue q :
  entry_ok (EQueueOperation q) = true ->
  parse_transcript_entry (dump_entry (EQueueOperation q)) =
    Ok (redecoded_entry (EQueueOperation q)).
Proof.
  intros Hok. destruct q as [op ts sid c]. cbn [entry_ok qe_content qe_operation] in Hok.
  apply andb_true_iff in Hok. destruct Hok as [Hc Hop].
  rewrite parse_transcript_entry_queue by reflexivity.
  unfold parse_queue_operation_entry.
  destruct c as [l |].
  - cbn [dump_entry dump_opt lookup String.eqb Ascii.eqb Bool.eqb andb qe_content].
    rewrite parse_message_content_dump by exact Hc. cbn [bind ret].
    unfold v_QueueOperationTranscriptEntry, from_dict, req, opt_field, dflt.
    cbn [pkvs map fst snd of_json dict_set lookup String.eqb Ascii.eqb Bool.eqb andb
         option_bind v_str v_list v_opt qe_operation qe_timestamp qe_sessionId].
    rewrite traverse_content_items. unfold v_literal at 2. rewrite Hop. reflexivity.
  - cbn [dump_entry dump_opt lookup String.eqb Ascii.eqb Bool.eqb andb qe_content bind ret].
    unfold v_QueueOperationTranscriptEntry, from_dict, req, opt_field, dflt.
    cbn [pkvs map fst snd of_json dict_set lookup String.eqb Ascii.eqb Bool.eqb andb
         option_bind v_str v_list v_opt qe_operation qe_timestamp qe_sessionId].
    unfold v_literal at 2. rewrite Hop. reflexivity.
Qed.

Lemma redecoded_item_same c : redecoded_item c = c <-> local_item c = false.
Proof. destruct c as [| | | t [sg |] | | | |]; cbn; split; congruence. Qed.

Lemma map_redecoded_same l :
  map redecoded_item l = l <-> forallb (fun c => negb (local_item c)) l = true.
Proof.
  induction l as [| c l IH]; cbn; [tauto |].
  rewrite andb_true_iff, negb_true_iff, <- IH, <- redecoded_item_same.
  split; [intros H; injection H; tauto | intros [-> ->]; reflexivity].
Qed.

Lemma redecoded_message_content_same mc :
  redecoded_message_content mc = mc <->
  forallb (fun c => negb (local_item c)) (message_items mc) = true.
Proof.
  destruct mc as [s | l]; cbn; [tauto |]. rewrite <- map_redecoded_same.
  split; [intros H; injection H; tauto | intros ->; reflexivity].
Qed.

Lemma redecoded_tool_use_result_same t :
  option_map redecoded_tool_use_result t = t <->
  forallb (fun c => negb (local_item c)) (tool_use_result_items t) = true.
Proof.
  destruct t as [[] |]; cbn [option_map redecoded_tool_use_result tool_use_result_items];
    try (cbn; tauto).
  rewrite <- map_redecoded_same.
  split; [intros H; injection H; tauto | intros ->; reflexivity].
Qed.

Lemma redecoded_entry_same e :
  redecoded_entry e = e <-> forallb (fun c => negb (local_item c)) (entry_items e) = true.
Proof.
  destruct e as [[b [mc] t] | [b [i md l sr ss u] r] | s | s | [op ts sid c]];
    cbn [redecoded_entry entry_items ue_base ue_message ue_toolUseResult um_content
         ae_base ae_message am_id am_model am_content am_stop_reason am_stop_sequence am_usage
         ae_requestId qe_operation qe_timestamp qe_sessionId qe_content].
  - rewrite forallb_app, andb_true_iff, <- redecoded_message_content_same,
      <- redecoded_tool_use_result_same.
    split; [intros H; injection H; tauto | intros [-> ->]; reflexivity].
  - rewrite <- map_redecoded_same.
    split; [intros H; injection H; tauto | intros ->; reflexivity].
  - cbn; tauto.
  - cbn; tauto.
  - destruct c as [l |]; cbn [option_map]; [| cbn; tauto].
    rewrite <- map_redecoded_same.
    split; [intros H; injection H; tauto | intros ->; reflexivity].
Qed.

(** C8, amended: summary and system entries encode to JSON that decodes back
    to the same entry.  For every record that [parse_transcript_entry]
    decodes, encoding the entry and decoding it again succeeds and gives the
    entry with each item replaced by [redecoded_item] of it; that is the
    first decoded entry exactly when the entry holds no local text item, no
    local tool-use item and no local thinking item with a signature. *)
Theorem roundtrip_entries :
  (forall s, parse_transcript_entry (dump_entry (ESummary s)) = Ok (ESummary s)) /\
  (forall s, parse_transcript_entry (dump_entry (ESystem s)) = Ok (ESystem s)) /\
  (forall data e, parse_transcript_entry data = Ok e ->
     parse_transcript_entry (dump_entry e) = Ok (redecoded_entry e) /\
     (redecoded_entry e = e <->
      forallb (fun c => negb (local_item c)) (entry_items e) = true)).
Proof.
  split; [| split].
  - intros [su l c]. destruct c; reflexivity.
  - intros [[p sc ut cwd sid ver u ts im] c l]. destruct p, im, l; reflexivity.
  - intros data e H. split; [| apply redecoded_entry_same].
    pose proof (parse_transcript_entry_ok _ _ H) as Hok.
    destruct e as [u | a | s | s | q].
    + exact (roundtrip_user u Hok).
    + exact (roundtrip_assistant a Hok).
    + destruct s as [su l c]. destruct c; reflexivity.
    + destruct s as [[p sc ut cwd sid ver u ts im] c l]. destruct p, im, l; reflexivity.
    + exact (roundtrip_queue q Hok).
Qed.

Lemma roundtrip_entries_witness :
  parse_transcript_entry (mcp_user_record [ok_text_item]) = Ok (EUser mcp_user_entry) /\
  parse_transcript_entry (dump_entry (EUser mcp_user_entry)) =
    Ok (redecoded_entry (EUser mcp_user_entry)) /\
  redecoded_entry (EUser mcp_user_entry) = EUser mcp_user_entry.
Proof.
  assert (H : parse_transcript_entry (mcp_user_record [ok_text_item]) =
                Ok (EUser mcp_user_entry)) by (vm_compute; reflexivity).
  split; [exact H |].
  destruct (proj2 (proj2 roundtrip_entries) _ _ H) as [H1 H2].
  split; [exact H1 |]. apply H2. vm_compute. reflexivity.
Defined.
